(** * The FunSearch evaluator ([implementation/evaluator.py])

    A shallow embedding of the evaluation harness: recovery of a function
    body from generated text, assembly of the runnable program on a copy of
    the template, the sandboxed run of one test input in a worker process,
    and the admission of scores by [Evaluator.analyse].

    Python text is a list of Unicode code points, Python integers are [Z],
    objects that the code mutates ([Function] instances) live in a store and
    are referred to by their address.  What the code obtains from outside
    the module (CPython's parser, the worker's behaviour, [str] of arbitrary
    objects, the modules [code_manipulation] and [programs_database]) is a
    field of the class [Externals] or a definition marked as modelled from
    the specification. *)

From Stdlib Require Import ZArith NArith Ascii String DecimalString.
From stdpp Require Import base option list gmap.

Local Open Scope Z_scope.
Local Set Warnings "-register-all".

(** ** Python text *)

Abbreviation pystr := (list N).

(** A literal, written as a Rocq string of ASCII characters. *)
Definition py (s : string) : pystr := N_of_ascii <$> list_ascii_of_string s.

(** The one-character text [\n]. *)
Definition NL : pystr := [10%N].

(** Line boundaries of [str.splitlines]: LF, VT, FF, CR, FS, GS, RS, NEL,
    LINE SEPARATOR and PARAGRAPH SEPARATOR (CR LF counts as one). *)
Definition is_linebreak (c : N) : bool :=
  bool_decide (c ∈ [10; 11; 12; 13; 28; 29; 30; 133; 8232; 8233]%N).

(** [str.splitlines()] without [keepends]; [cur] is the line read so far. *)
Fixpoint splitlines_from (cur s : pystr) : list pystr :=
  match s with
  | [] => match cur with [] => [] | _ => [cur] end
  | c :: rest =>
      if is_linebreak c then
        cur :: match rest with
               | c' :: rest' =>
                   if ((c =? 13) && (c' =? 10))%N
                   then splitlines_from [] rest'
                   else splitlines_from [] rest
               | [] => splitlines_from [] rest
               end
      else splitlines_from (cur ++ [c]) rest
  end.

Definition splitlines (s : pystr) : list pystr := splitlines_from [] s.

Definition line_count (s : pystr) : nat := length (splitlines s).

(** [sep.join(parts)]. *)
Fixpoint join (sep : pystr) (parts : list pystr) : pystr :=
  match parts with
  | [] => []
  | [p] => p
  | p :: ps => p ++ sep ++ join sep ps
  end.

(** A text without line boundaries. *)
Definition breakfree (s : pystr) : Prop :=
  Forall (λ c, is_linebreak c = false) s.

(** [s.startswith(prefix)]. *)
Definition startswith (s prefix : pystr) : bool :=
  bool_decide (prefix `prefix_of` s).

(** Decimal rendering of an integer inside an f-string. *)
Definition format_int (z : Z) : pystr := py (NilZero.string_of_int (Z.to_int z)).

(** ** Python slices *)

(** A slice bound on a sequence of length [len]: negative bounds count from
    the end, and every bound is clipped to the sequence. *)
Definition slice_bound (len : nat) (k : Z) : nat :=
  if k <? 0 then Z.to_nat (Z.of_nat len + k) else Z.to_nat k.

(** [l[start:stop]]. *)
Definition py_slice {A} (l : list A) (start stop : Z) : list A :=
  drop (slice_bound (length l) start) (take (slice_bound (length l) stop) l).

(** [l[:stop]]. *)
Definition py_slice_to {A} (l : list A) (stop : Z) : list A :=
  take (slice_bound (length l) stop) l.

(** ** Exceptions and outcomes *)

Inductive Exn :=
| ValueError (msg : pystr)
| TypeError (msg : pystr)
| AssertionError
| QueueEmpty                       (* queue.Empty *)
| ConfigurationError (msg : pystr) (* get_function on an absent name *)
| OtherError (name : pystr).

(** What a call does: return a value, raise, or still be running when the
    fuel that bounds the model's loops is spent. *)
Inductive Outcome (A : Type) :=
| Ok (a : A)
| Raise (e : Exn)
| OutOfFuel.
Arguments Ok {A} a.
Arguments Raise {A} e.
Arguments OutOfFuel {A}.

(** ** Syntax trees, as far as [_FunctionLineVisitor] looks at them *)

Inductive node :=
| FunctionDef (name : pystr) (end_lineno : Z) (children : list node)
| Node (children : list node).

(** What [ast.parse] does with a text. [SyntaxError] covers its subclasses
    ([IndentationError], [TabError]); its [lineno] attribute may be [None]. *)
Inductive ParseResult :=
| Parsed (tree : node)
| SyntaxError (lineno : option Z)
| ParseFailure (e : Exn).

(** [_FunctionLineVisitor.visit]: [visit_FunctionDef] on function
    definitions, [generic_visit] elsewhere; the state is
    [_function_end_line]. *)
Fixpoint visit (target : pystr) (n : node) (function_end_line : option Z)
  : option Z :=
  match n with
  | FunctionDef name end_lineno children =>
      fold_left (fun st c => visit target c st) children
        (if decide (name = target) then Some end_lineno else function_end_line)
  | Node children =>
      fold_left (fun st c => visit target c st) children function_end_line
  end.

(** The property [function_end_line], with its assertion. *)
Definition function_end_line (st : option Z) : Outcome Z :=
  match st with
  | Some l => Ok l
  | None => Raise AssertionError
  end.

(** ** Python values *)

(** The values test inputs and test outputs range over.  [VFloat] carries
    the bit pattern of a double; [VObject] is any object whose class derives
    from neither [int] nor [float] (tuples, lists, arrays, ...). *)
Inductive PyVal :=
| VNone
| VBool (b : bool)
| VInt (n : Z)
| VFloat (bits : N)
| VStr (s : pystr)
| VObject (id : N).

#[global] Instance PyVal_eq_dec : EqDecision PyVal.
Proof. solve_decision. Defined.

(** [isinstance(v, (int, float))]; [bool] is a subclass of [int]. *)
Definition isinstance_int_float (v : PyVal) : bool :=
  match v with
  | VBool _ | VInt _ | VFloat _ => true
  | VNone | VStr _ | VObject _ => false
  end.

(** ** The world: object store, worker processes, programs database *)

(** Addresses of [Function] instances. *)
Abbreviation loc := nat.

(** Modelled from the spec: [code_manipulation.Function] is absent from the
    sources; a Function has a name, a parameter signature and a body. *)
Record Function := mkFunction {
  fn_name : pystr;
  fn_args : pystr;
  fn_body : pystr;
}.

#[global] Instance Function_inhabited : Inhabited Function :=
  populate (mkFunction [] [] []).

(** Modelled from the spec: [code_manipulation.Program] is absent from the
    sources; a Program holds a collection of Function instances. *)
Record Program := mkProgram {
  functions : list loc;
}.

(** What the evaluator knows of a worker process: started and not known to
    have ended; ended; [terminate()] called on it.  A terminated worker has
    been sent the signal, the code never waits for it to end. *)
Inductive ProcStatus := Alive | Exited | Terminated.

#[global] Instance ProcStatus_eq_dec : EqDecision ProcStatus.
Proof. solve_decision. Defined.

(** One call received by [register_program]. *)
Record Registration := mkRegistration {
  reg_function : loc;
  reg_island_id : option Z;
  reg_scores : gmap pystr PyVal;
}.

Record World := mkWorld {
  heap : list Function;          (* the Function instances, by address *)
  processes : list ProcStatus;   (* the workers spawned so far, by pid *)
  database : list Registration;  (* the calls of register_program so far *)
}.

Definition set_heap (h : list Function) (w : World) : World :=
  mkWorld h (processes w) (database w).
Definition set_processes (ps : list ProcStatus) (w : World) : World :=
  mkWorld (heap w) ps (database w).
Definition set_database (d : list Registration) (w : World) : World :=
  mkWorld (heap w) (processes w) d.

(** Computations on the world.  The world reached when an exception is
    raised is kept: Python does not roll anything back. *)
Definition M (A : Type) : Type := World -> Outcome A * World.

#[global] Instance M_ret : MRet M := λ A a w, (Ok a, w).

#[global] Instance M_bind : MBind M := λ A B f m w,
  match m w with
  | (Ok a, w') => f a w'
  | (Raise e, w') => (Raise e, w')
  | (OutOfFuel, w') => (OutOfFuel, w')
  end.

Definition raise {A} (e : Exn) : M A := λ w, (Raise e, w).

Definition lift {A} (o : Outcome A) : M A := λ w, (o, w).

(** *** The template collaborator *)

(** Modelled from the spec: the deep copy of the Function instances of a
    program, as [copy.deepcopy] makes it: each instance met for the first
    time is copied to a fresh address, recorded in [memo]; an instance met
    again is replaced by the copy already made. *)
Fixpoint deepcopy_functions (memo : gmap loc loc) (fs : list loc)
    (h : list Function) : list loc * list Function :=
  match fs with
  | [] => ([], h)
  | l :: fs' =>
      match memo !! l with
      | Some l' =>
          let '(r, h') := deepcopy_functions memo fs' h in (l' :: r, h')
      | None =>
          let l' := length h in
          let '(r, h') :=
            deepcopy_functions (<[l := l']> memo) fs' (h ++ [h !!! l]) in
          (l' :: r, h')
      end
  end.

(** Modelled from the spec: [clone(program)], a deep, independent copy. *)
Definition deepcopy (p : Program) : M Program := λ w,
  let '(r, h') := deepcopy_functions ∅ (functions p) (heap w) in
  (Ok (mkProgram r), set_heap h' w).

(** Modelled from the spec: [get_function(name)] returns a reference to the
    Function of that name and fails fatally if the program has none. *)
Definition get_function (p : Program) (function_name : pystr) : M loc := λ w,
  match list_find (λ l, fn_name (heap w !!! l) = function_name) (functions p) with
  | Some (_, l) => (Ok l, w)
  | None => (Raise (ConfigurationError function_name), w)
  end.

(** Modelled from the spec: the assignment [function.body = body] on a
    Function reference replaces the body and nothing else. *)
Definition set_body (l : loc) (body : pystr) : M unit := λ w,
  let f := heap w !!! l in
  (Ok tt, set_heap (<[l := mkFunction (fn_name f) (fn_args f) body]> (heap w)) w).

(** The Function instances of a program, as they are in a store. *)
Definition program_functions (h : list Function) (p : Program) : list Function :=
  (λ l, h !!! l) <$> functions p.

(** The number of positions at which two lists of Functions have different
    bodies. *)
Definition body_differences (tv new : list Function) : nat :=
  length (filter (λ p, fn_body p.1 ≠ fn_body p.2) (zip tv new)).

(** *** The programs database *)

(** Modelled from the spec: [register_program(function, island_id,
    score_map)] of the absent module [programs_database]; the call is
    recorded. *)
Definition register_program (f : loc) (island_id : option Z)
    (scores_per_test : gmap pystr PyVal) : M unit := λ w,
  (Ok tt, set_database (database w ++ [mkRegistration f island_id scores_per_test]) w).

(** ** The sandbox *)

(** What the [try] block of [sandbox_target] does in the worker. *)
Inductive Completion :=
| Returned (result : PyVal)            (* the function returned [result] *)
| RaisedException (e tb : pystr)       (* an [Exception]: [str(e)] and traceback *)
| RaisedBaseException                  (* [SystemExit], [KeyboardInterrupt], ... *)
| Died.                                (* the process was killed or called [os._exit] *)

(** What the caller finds when [process.join(timeout_seconds)] returns. *)
Inductive WorkerRun :=
| Finished (c : Completion)
| StillRunning.

(** [sandbox_target]: the content of the queue when the worker ends. *)
Definition sandbox_target (queue : list (PyVal * bool)) (c : Completion)
  : list (PyVal * bool) :=
  match c with
  | Returned result => queue ++ [(result, true)]
  | RaisedException e tb =>
      queue ++ [(VStr (py "Error: " ++ e ++ NL ++ tb), false)]
  | RaisedBaseException => queue
  | Died => queue
  end.

Definition set_status (pid : nat) (s : ProcStatus) : M unit := λ w,
  (Ok tt, set_processes (<[pid := s]> (processes w)) w).

(** [multiprocessing.Process(...)] followed by [process.start()]. *)
Definition process_start : M nat := λ w,
  (Ok (length (processes w)), set_processes (processes w ++ [Alive]) w).

(** [process.join(timeout_seconds)]: the worker either ends, leaving what
    it put in the queue, or is still running at the deadline. *)
Definition process_join (pid : nat) (r : WorkerRun) : M (list (PyVal * bool)) :=
  match r with
  | Finished c => _ ← set_status pid Exited; mret (sandbox_target [] c)
  | StillRunning => mret []
  end.

Definition process_is_alive (pid : nat) : M bool := λ w,
  (Ok (bool_decide (processes w !! pid = Some Alive)), w).

(** [process.terminate()]: the call is recorded; the worker is sent the
    signal, and nothing waits for it to end. *)
Definition process_terminate (pid : nat) : M unit := set_status pid Terminated.

(** [queue.get_nowait()]. *)
Definition queue_get_nowait (queue : list (PyVal * bool)) : M (PyVal * bool) :=
  match queue with
  | item :: _ => mret item
  | [] => raise QueueEmpty
  end.

(** ** Notions used to state the properties *)

(** The pair that [Sandbox.run] returns on a timeout. *)
Definition timeout_result : PyVal * bool :=
  (VStr (py "Timeout Error: Code execution exceeded time limit"), false).

(** What [Sandbox.run] gives its caller for each behaviour of the worker
    (proved below: [Sandbox_run_unfold]). *)
Definition run_result (r : WorkerRun) : Outcome (PyVal * bool) :=
  match r with
  | StillRunning => Ok timeout_result
  | Finished c =>
      match sandbox_target [] c with
      | item :: _ => Ok item
      | [] => Raise QueueEmpty
      end
  end.

(** The state in which [Sandbox.run] leaves the worker: [Exited] when it
    ended by the deadline, [Terminated] when it was still running then and
    [terminate()] has been called on it. *)
Definition final_status (r : WorkerRun) : ProcStatus :=
  match r with
  | StillRunning => Terminated
  | Finished _ => Exited
  end.

(** The configuration of an [Evaluator]; its database is part of the
    world, its sandbox has no state. *)
Record Evaluator := mkEvaluator {
  _template : Program;
  _function_to_evolve : pystr;
  _function_to_run : pystr;
  _inputs : list PyVal;
  _timeout_seconds : Z;
}.

(** ** Body recovery: [_trim_function_body] *)

Definition fake_function_header : pystr := py "fake_function_header".

(** The text kept after a syntax error at [lineno]:
    ["\n".join(code.splitlines()[: e.lineno - 1])]. *)
Definition truncate (code : pystr) (lineno : Z) : pystr :=
  join NL (py_slice_to (splitlines code) (lineno - 1)).


(** ** What the evaluator obtains from outside *)

Class Externals := {
  (** CPython's [ast.parse]. *)
  ast_parse : pystr -> ParseResult;
  (** How the worker with a given pid behaves on a program text, a function
      name, an input and a deadline. *)
  worker : nat -> pystr -> pystr -> PyVal -> Z -> WorkerRun;
  (** The built-in [str]. *)
  py_str : PyVal -> pystr;
  (** [code_manipulation.rename_function_calls], absent from the sources. *)
  rename_function_calls : pystr -> pystr -> pystr -> pystr;
  (** [code_manipulation.get_functions_called], absent from the sources. *)
  get_functions_called : pystr -> list pystr;
  (** [Program.__str__], absent from the sources: the text of a program
      whose Function instances have the given values. *)
  render : list Function -> pystr;
}.

(** ** The code of [evaluator.py] *)

Section Code.

Context {ext : Externals}.

(** The loop [while tree is None]; [fuel] bounds the number of times its
    body runs, that is the number of calls of [ast.parse]. *)
Fixpoint parse_loop (fuel : nat) (code : pystr) : Outcome (node * pystr) :=
  match fuel with
  | O => OutOfFuel
  | S fuel' =>
      match ast_parse code with
      | Parsed tree => Ok (tree, code)
      | SyntaxError (Some lineno) => parse_loop fuel' (truncate code lineno)
      | SyntaxError None =>
          Raise (TypeError (py "unsupported operand type(s) for -: 'NoneType' and 'int'"))
      | ParseFailure e => Raise e
      end
  end.

Definition _trim_function_body (fuel : nat) (generated_code : pystr)
  : Outcome pystr :=
  match generated_code with
  | [] => Ok []
  | _ =>
      let code := py "def fake_function_header():" ++ NL ++ generated_code in
      match parse_loop fuel code with
      | Ok (tree, code) =>
          match code with
          | [] => Ok []
          | _ =>
              match function_end_line (visit fake_function_header tree None) with
              | Ok end_line =>
                  let body_lines := py_slice (splitlines code) 1 end_line in
                  Ok (join NL body_lines ++ NL ++ NL)
              | Raise e => Raise e
              | OutOfFuel => OutOfFuel
              end
          end
      | Raise e => Raise e
      | OutOfFuel => OutOfFuel
      end
  end.


Definition program_str (p : Program) : M pystr := λ w,
  (Ok (render (program_functions (heap w) p)), w).

Definition _sample_to_program (fuel : nat) (generated_code : pystr)
    (version_generated : option Z) (template : Program)
    (function_to_evolve : pystr) : M (loc * pystr) :=
  body ← lift (_trim_function_body fuel generated_code);
  let body :=
    match version_generated with
    | Some v =>
        rename_function_calls body
          (function_to_evolve ++ py "_v" ++ format_int v) function_to_evolve
    | None => body
    end in
  program ← deepcopy template;
  evolved_function ← get_function program function_to_evolve;
  _ ← set_body evolved_function body;
  text ← program_str program;
  mret (evolved_function, text).

(** [Sandbox.run]. *)
Definition Sandbox_run (program function_to_run : pystr) (test_input : PyVal)
    (timeout_seconds : Z) : M (PyVal * bool) :=
  pid ← process_start;
  queue ← process_join pid
            (worker pid program function_to_run test_input timeout_seconds);
  alive ← process_is_alive pid;
  if alive : bool then
    _ ← process_terminate pid;
    mret (VStr (py "Timeout Error: Code execution exceeded time limit"), false)
  else
    '(result, success) ← queue_get_nowait queue;
    mret (result, success).

Definition _calls_ancestor (program function_to_evolve : pystr) : bool :=
  existsb (λ name, startswith name (function_to_evolve ++ py "_v"))
    (get_functions_called program).

(** The three conditions under which a run's output is taken as a score. *)
Definition admitted (self : Evaluator) (program : pystr)
    (test_output : PyVal) (runs_ok : bool) : bool :=
  runs_ok
  && negb (_calls_ancestor program (_function_to_evolve self))
  && negb (bool_decide (test_output = VNone)).

(** The body of the loop over the test inputs, after the run. *)
Definition record_score (self : Evaluator) (program : pystr)
    (current_input test_output : PyVal) (runs_ok : bool)
    (scores_per_test : gmap pystr PyVal) : M (gmap pystr PyVal) :=
  if admitted self program test_output runs_ok then
    if negb (isinstance_int_float test_output) then
      raise (ValueError (py "@function.run did not return an int/float score."))
    else mret (<[py_str current_input := test_output]> scores_per_test)
  else mret scores_per_test.

(** The loop [for current_input in self._inputs]. *)
Fixpoint score_inputs (self : Evaluator) (program : pystr)
    (inputs : list PyVal) (scores_per_test : gmap pystr PyVal)
  : M (gmap pystr PyVal) :=
  match inputs with
  | [] => mret scores_per_test
  | current_input :: rest =>
      '(test_output, runs_ok) ←
        Sandbox_run program (_function_to_run self) current_input
          (_timeout_seconds self);
      scores ← record_score self program current_input test_output runs_ok
                 scores_per_test;
      score_inputs self program rest scores
  end.

(** [Evaluator.analyse]. *)
Definition analyse (fuel : nat) (self : Evaluator) (sample : pystr)
    (island_id version_generated : option Z) : M unit :=
  '(new_function, program) ←
    _sample_to_program fuel sample version_generated (_template self)
      (_function_to_evolve self);
  scores_per_test ← score_inputs self program (_inputs self) ∅;
  if decide (scores_per_test = ∅) then mret tt
  else register_program new_function island_id scores_per_test.

(** A sequence of calls of [analyse], each given as (sample, island_id,
    version_generated); the caller goes on whatever a call does. *)
Fixpoint analyse_calls (fuel : nat) (self : Evaluator)
    (calls : list (pystr * option Z * option Z)) (w : World) : World :=
  match calls with
  | [] => w
  | (sample, island_id, version_generated) :: rest =>
      analyse_calls fuel self rest
        (analyse fuel self sample island_id version_generated w).2
  end.

(** The run of the [i]-th test input, by the worker of pid [base + i],
    passed the three checks of the loop with output [out]. *)
Definition accepted_run (self : Evaluator) (program : pystr) (base i : nat)
    (x out : PyVal) : Prop :=
  run_result (worker (base + i) program (_function_to_run self) x
                (_timeout_seconds self)) = Ok (out, true)
  ∧ _calls_ancestor program (_function_to_evolve self) = false
  ∧ out ≠ VNone.

End Code.

(** The naming pattern of the specification, [<function_to_evolve>_v<digits>]:
    the name is the function's, followed by [_v] and one or more decimal
    digits. *)
Definition matches_version_pattern (function_to_evolve name : pystr) : bool :=
  let versioned := function_to_evolve ++ py "_v" in
  let digits := drop (length versioned) name in
  startswith name versioned
  && negb (bool_decide (digits = []))
  && forallb (λ c, (48 <=? c)%N && (c <=? 57)%N) digits.

(** ** A sample configuration, used by the examples *)

(** CPython 3.11's answers on the texts of the examples below;
    [IndentationError] is a [SyntaxError].  Texts outside the table are not
    used by any example. *)
Definition cpython_parse_sample (code : pystr) : ParseResult :=
  let hdr := py "def fake_function_header():" in
  let fdef e := Parsed (Node [FunctionDef fake_function_header e [Node []]]) in
  if decide (code = []) then Parsed (Node [])
  else if decide (code = hdr) then SyntaxError (Some 1)
  else if decide (code = hdr ++ NL ++ py "x") then SyntaxError (Some 2)
  else if decide (code = hdr ++ NL ++ py "return 1" ++ NL ++ py "if True" ++ NL)
       then SyntaxError (Some 2)
  else if decide (code = hdr ++ NL ++ py "  return 1" ++ NL ++ py "  if True" ++ NL)
       then SyntaxError (Some 3)
  else if decide (code = hdr ++ NL ++ py "  return 1") then fdef 2
  else ParseFailure (OtherError (py "not tabulated")).

(** [str] on [None], booleans, integers and text; the examples apply it to
    no other value. *)
Definition sample_str (v : PyVal) : pystr :=
  match v with
  | VNone => py "None"
  | VBool true => py "True"
  | VBool false => py "False"
  | VInt n => format_int n
  | VStr s => s
  | VFloat _ => py "<float>"
  | VObject _ => py "<object>"
  end.

(** A rendering of a program: its functions, one after the other. *)
Definition sample_render (fs : list Function) : pystr :=
  concat ((λ f, py "def " ++ fn_name f ++ py "(" ++ fn_args f ++ py "):" ++ NL
                ++ fn_body f) <$> fs).

(** No call is renamed; the examples pass no version. *)
Definition sample_rename (body old_name new_name : pystr) : pystr := body.

(** A store with the two Functions of the sample template: [evolve], which
    returns 1, and the entry point [run], with the given body. *)
Definition sample_world (run_body : pystr) : World :=
  mkWorld
    [ mkFunction (py "evolve") (py "x") (py "  return 1" ++ NL ++ NL);
      mkFunction (py "run") (py "x") run_body ]
    [] [].

Definition sample_template : Program := mkProgram [0%nat; 1%nat].

Definition sample_evaluator (inputs : list PyVal) : Evaluator :=
  mkEvaluator sample_template (py "evolve") (py "run") inputs 30.

(** A store and a template with a third Function, [evolve_value], which the
    entry point calls. *)
Definition helper_world : World :=
  mkWorld
    [ mkFunction (py "evolve") (py "x") (py "  return 1" ++ NL ++ NL);
      mkFunction (py "run") (py "x") (py "  return evolve_value(evolve(x))");
      mkFunction (py "evolve_value") (py "x") (py "  return x + 4") ]
    [] [].

Definition helper_template : Program := mkProgram [0%nat; 1%nat; 2%nat].

Definition helper_evaluator (inputs : list PyVal) : Evaluator :=
  mkEvaluator helper_template (py "evolve") (py "run") inputs 30.

(** A fragment with a malformed last line; what is recovered from it is the
    body [return 1]. *)
Definition sample_fragment : pystr :=
  py "  return 1" ++ NL ++ py "  if True" ++ NL.

(** The workers behave as listed, by pid; later ones are still running at
    the deadline. *)
Definition workers (runs : list WorkerRun)
  : nat -> pystr -> pystr -> PyVal -> Z -> WorkerRun :=
  λ pid _ _ _ _, default StillRunning (runs !! pid).

(** The externals of the examples: CPython's answers, workers behaving as
    listed, a program that calls the listed names. *)
Definition sample_externals (runs : list WorkerRun) (called : list pystr)
  : Externals :=
  {| ast_parse := cpython_parse_sample;
     worker := workers runs;
     py_str := sample_str;
     rename_function_calls := sample_rename;
     get_functions_called := λ _, called;
     render := sample_render |}.

(** [analyse] of the sample fragment on the sample template, with the given
    body of [run], the given behaviour of the workers and the given test
    inputs; the program calls [evolve] and nothing else. *)
Definition sample_analyse (run_body : pystr) (runs : list WorkerRun)
    (inputs : list PyVal) : Outcome unit * World :=
  analyse (ext := sample_externals runs [py "evolve"]) 3
    (sample_evaluator inputs) sample_fragment None None (sample_world run_body).

(** The same on the template whose entry point calls [evolve_value]. *)
Definition helper_analyse (runs : list WorkerRun) (inputs : list PyVal)
  : Outcome unit * World :=
  analyse (ext := sample_externals runs [py "evolve_value"; py "evolve"]) 3
    (helper_evaluator inputs) sample_fragment None None helper_world.

(** Bodies of [run] for the examples: a number, a number or a division by
    zero, a number or a text, a boolean. *)
Definition run_number : pystr := py "  return evolve(x) + 4".
Definition run_dividing : pystr := py "  return 5 // (2 - x)".
Definition run_mixed : pystr := py "  return 5 if x == 1 else 'ok'".
Definition run_boolean : pystr := py "  return evolve(x) == x".

(** The text of the program assembled from the sample fragment: the body
    recovered from it is the one [evolve] has in the template. *)
Definition sample_program (run_body : pystr) : pystr :=
  sample_render (heap (sample_world run_body)).

(** Workers and inputs of the examples: a score for input 1 and the text
    ['ok'] for input 2; a score and a run that raises. *)
Definition runs_mixed : list WorkerRun :=
  [Finished (Returned (VInt 5)); Finished (Returned (VStr (py "ok")))].
Definition runs_one_failure : list WorkerRun :=
  [Finished (Returned (VInt 5));
   Finished (RaisedException (py "integer division or modulo by zero")
               (py "Traceback (most recent call last):"))].
Definition two_inputs : list PyVal := [VInt 1; VInt 2].

(** A world with no object, no worker and no registration. *)
Definition empty_world : World := mkWorld [] [] [].

(** A program whose entry point ends the worker process at once. *)
Definition exiting_program : pystr :=
  py "import os" ++ NL ++ py "def run(x):" ++ NL ++ py "    os._exit(1)" ++ NL.


(** ** Notions used by the further properties *)

(** The end lines of the definitions named [target] in a tree, in the order
    in which [_FunctionLineVisitor] meets them: a definition before the
    ones nested in it, siblings from first to last. *)
Fixpoint function_ends (target : pystr) (n : node) : list Z :=
  match n with
  | FunctionDef name end_lineno children =>
      (if decide (name = target) then [end_lineno] else [])
      ++ flat_map (function_ends target) children
  | Node children => flat_map (function_ends target) children
  end.

Section FurtherNotions.

Context {ext : Externals}.

(** Among the test inputs whose string representation is [key], the last
    one whose run passed the three checks of the loop had output [v]. *)
Definition last_accepted_run (self : Evaluator) (program : pystr) (base : nat)
    (inputs : list PyVal) (key : pystr) (v : PyVal) : Prop :=
  ∃ i x, inputs !! i = Some x ∧ py_str x = key
    ∧ accepted_run self program base i x v
    ∧ ∀ j y out, (i < j)%nat → inputs !! j = Some y → py_str y = key →
        ¬ accepted_run self program base j y out.

(** The parser rejects [code] with a syntax error at the first of
    [linenos], the text truncated there with a syntax error at the second,
    and so on: the loop of [_trim_function_body] runs once for each. *)
Fixpoint rejected_at (code : pystr) (linenos : list Z) : Prop :=
  match linenos with
  | [] => True
  | lineno :: rest =>
      ast_parse code = SyntaxError (Some lineno)
      ∧ rejected_at (truncate code lineno) rest
  end.

End FurtherNotions.

(** CPython 3.11's answers on the candidates met on the one-line fragment
    ["  if x:\r\n"]: the error is reported at line 3 of a text of two lines,
    then at line 2, then at line 1, and the empty text is accepted. *)
Definition cpython_parse_crlf (code : pystr) : ParseResult :=
  let hdr := py "def fake_function_header():" in
  if decide (code = []) then Parsed (Node [])
  else if decide (code = hdr) then SyntaxError (Some 1)
  else if decide (code = hdr ++ NL ++ py "  if x:") then SyntaxError (Some 2)
  else if decide (code = hdr ++ NL ++ py "  if x:" ++ [13%N; 10%N])
       then SyntaxError (Some 3)
  else ParseFailure (OtherError (py "not tabulated")).

Definition crlf_externals : Externals :=
  {| ast_parse := cpython_parse_crlf;
     worker := workers [];
     py_str := sample_str;
     rename_function_calls := sample_rename;
     get_functions_called := λ _, [py "evolve"];
     render := sample_render |}.

(** A fragment with a null byte, and CPython 3.11's answer on any text that
    holds one: [ast.parse] raises [ValueError], which is no [SyntaxError]. *)
Definition null_byte_fragment : pystr := py "  return 1" ++ [0%N].

Definition cpython_parse_null_bytes (code : pystr) : ParseResult :=
  if bool_decide (0%N ∈ code)
  then ParseFailure
         (ValueError (py "source code string cannot contain null bytes"))
  else cpython_parse_sample code.

Definition null_byte_externals : Externals :=
  {| ast_parse := cpython_parse_null_bytes;
     worker := workers [];
     py_str := sample_str;
     rename_function_calls := sample_rename;
     get_functions_called := λ _, [py "evolve"];
     render := sample_render |}.

(** A body whose first line is a sum of 3000 terms and whose second line
    is malformed, and CPython 3.11's answers on it under the default
    recursion limit: a syntax error at line 3, and on the first two lines
    [RecursionError] (maximum recursion depth exceeded during ast
    construction), which is no [SyntaxError]. *)
Definition deep_sum : pystr :=
  py "  x = 1" ++ concat (replicate 2999 (py "+1")).

Definition deep_fragment : pystr := deep_sum ++ NL ++ py "  if True" ++ NL.

Definition cpython_parse_deep (code : pystr) : ParseResult :=
  let hdr := py "def fake_function_header():" in
  if decide (code = hdr ++ NL ++ deep_fragment) then SyntaxError (Some 3)
  else if decide (code = hdr ++ NL ++ deep_sum)
       then ParseFailure (OtherError (py "RecursionError"))
  else cpython_parse_sample code.

Definition deep_externals : Externals :=
  {| ast_parse := cpython_parse_deep;
     worker := workers [];
     py_str := sample_str;
     rename_function_calls := sample_rename;
     get_functions_called := λ _, [py "evolve"];
     render := sample_render |}.

(** Further bodies of [run], workers and inputs for the examples: two
    inputs with the same string representation and different scores; an
    entry point that raises [SystemExit] on its second input. *)
Definition run_by_type : pystr := py "  return 5 if x == 1 else 7".
Definition runs_two_scores : list WorkerRun :=
  [Finished (Returned (VInt 5)); Finished (Returned (VInt 7))].
Definition same_key_inputs : list PyVal := [VInt 1; VStr (py "1")].

Definition run_exiting : pystr :=
  py "  if x == 1:" ++ NL ++ py "    return 5" ++ NL ++ py "  raise SystemExit".
Definition runs_exit : list WorkerRun :=
  [Finished (Returned (VInt 5)); Finished RaisedBaseException].

(** * Properties *)

Local Close Scope Z_scope.

(** ** Lines of a text *)

Lemma splitlines_from_app_breakfree x : ∀ cur s,
  breakfree x → splitlines_from cur (x ++ s) = splitlines_from (cur ++ x) s.
Proof.
  induction x as [|c x IH]; intros cur s Hx; simpl.
  - by rewrite app_nil_r.
  - inversion Hx as [|? ? Hc Hx']; subst. rewrite Hc.
    rewrite IH by done. by rewrite <- app_assoc.
Qed.

Lemma splitlines_from_NL cur s :
  splitlines_from cur (NL ++ s) = cur :: splitlines_from [] s.
Proof. simpl. by destruct s. Qed.

(** Every line returned by [splitlines] is free of line boundaries. *)
Lemma splitlines_from_breakfree n : ∀ s cur,
  length s ≤ n → breakfree cur → Forall breakfree (splitlines_from cur s).
Proof.
  induction n as [|n IH]; intros s cur Hlen Hcur.
  - destruct s; [|simpl in Hlen; lia]. simpl.
    destruct cur; [constructor|constructor; [done|constructor]].
  - destruct s as [|c rest]; simpl in *.
    + destruct cur; [constructor|constructor; [done|constructor]].
    + destruct (is_linebreak c) eqn:Hc.
      * constructor; [done|].
        destruct rest as [|c' rest']; [constructor|].
        destruct ((c =? 13)%N && (c' =? 10)%N);
          apply IH; simpl in *; try lia; constructor.
      * apply IH; [lia|]. apply Forall_app; split; [done|].
        constructor; [done|constructor].
Qed.

Lemma splitlines_breakfree s : Forall breakfree (splitlines s).
Proof. apply (splitlines_from_breakfree (length s)); [lia|constructor]. Qed.

(** Joining lines with [\n] and splitting again gives the lines back, less
    a last line that is empty. *)
Lemma splitlines_from_join x r : ∀ cur,
  Forall breakfree (x :: r) →
  splitlines_from cur (join NL (x :: r)) `prefix_of` (cur ++ x) :: r.
Proof.
  revert x. induction r as [|y r IH]; intros x cur Hl.
  - simpl. inversion Hl; subst.
    replace x with (x ++ []) at 1 by apply app_nil_r.
    rewrite splitlines_from_app_breakfree by done. simpl.
    destruct (cur ++ x); [apply prefix_nil|done].
  - inversion Hl as [|? ? Hx Hr]; subst.
    change (join NL (x :: y :: r)) with (x ++ NL ++ join NL (y :: r)).
    rewrite splitlines_from_app_breakfree by done.
    rewrite splitlines_from_NL. apply prefix_cons.
    apply (IH y [] Hr).
Qed.

Lemma splitlines_join ls :
  Forall breakfree ls → splitlines (join NL ls) `prefix_of` ls.
Proof.
  destruct ls as [|x r]; [done|]. intros H.
  apply (splitlines_from_join x r [] H).
Qed.




Lemma truncate_lines code lineno :
  splitlines (truncate code lineno) `prefix_of` splitlines code.
Proof.
  unfold truncate, py_slice_to.
  etransitivity; [apply splitlines_join|apply prefix_take].
  apply Forall_take, splitlines_breakfree.
Qed.



(** ** The monad and the store *)

Ltac unfold_M :=
  unfold mbind, M_bind, mret, M_ret, raise, lift, set_status,
    set_heap, set_processes, set_database.

Lemma insert_last {A} (l : list A) (x y : A) :
  <[length l := x]> (l ++ [y]) = l ++ [x].
Proof. rewrite insert_app_r_alt by lia. by rewrite Nat.sub_diag. Qed.

Lemma lookup_last {A} (l : list A) (y : A) : (l ++ [y]) !! length l = Some y.
Proof. rewrite lookup_app_r by lia. by rewrite Nat.sub_diag. Qed.

Lemma deepcopy_functions_fresh base : ∀ fs memo h r h',
  base ≤ length h →
  (∀ l l', memo !! l = Some l' → base ≤ l') →
  deepcopy_functions memo fs h = (r, h') →
  h `prefix_of` h' ∧ Forall (λ l', base ≤ l') r.
Proof.
  induction fs as [|l fs IH]; intros memo h r h' Hbase Hmemo; simpl.
  { by intros [= <- <-]. }
  destruct (memo !! l) as [l'|] eqn:El.
  - destruct (deepcopy_functions memo fs h) as [r0 h0] eqn:E.
    intros [= <- <-]. destruct (IH _ _ _ _ Hbase Hmemo E) as [Hp Hr].
    split; [done|]. constructor; [by eapply Hmemo|done].
  - destruct (deepcopy_functions _ fs (h ++ _)) as [r0 h0] eqn:E.
    intros [= <- <-]. apply IH in E as [Hp Hr].
    + split; [|by constructor].
      etransitivity; [|exact Hp]. by apply prefix_app_r.
    + rewrite length_app. lia.
    + intros l1 l2. rewrite lookup_insert. case_decide.
      * intros [= <-]. lia.
      * apply Hmemo.
Qed.

(** On a list of distinct instances the copy is laid out in order at the
    end of the store. *)
Lemma deepcopy_functions_nodup : ∀ fs memo h,
  NoDup fs → (∀ l, l ∈ fs → memo !! l = None) →
  Forall (λ l, l < length h) fs →
  deepcopy_functions memo fs h =
    (seq (length h) (length fs), h ++ ((λ l, h !!! l) <$> fs)).
Proof.
  induction fs as [|l fs IH]; intros memo h Hnd Hmemo Hwf; simpl.
  { by rewrite app_nil_r. }
  inversion Hnd as [|? ? Hl Hnd']; subst.
  inversion Hwf as [|? ? Hlt Hwf']; subst.
  rewrite Hmemo by left. rewrite IH; first last.
  - eapply Forall_impl; [exact Hwf'|]. intros l2 Hl2. simpl in *.
    rewrite length_app. lia.
  - intros l2 Hl2. rewrite lookup_insert_ne; [apply Hmemo; by right|].
    intros ->. done.
  - done.
  - rewrite length_app. simpl. rewrite Nat.add_1_r. f_equal.
    rewrite <- app_assoc. simpl. do 2 f_equal.
    apply Forall_fmap_ext_1. eapply Forall_impl; [exact Hwf'|].
    intros l2 Hl2. simpl in Hl2. by rewrite lookup_total_app_l.
Qed.

Lemma program_functions_copy (h tv : list Function) :
  (λ l, (h ++ tv) !!! l) <$> seq (length h) (length tv) = tv.
Proof.
  apply list_eq. intros i. rewrite list_lookup_fmap.
  destruct (decide (i < length tv)) as [Hi|Hi].
  - rewrite lookup_seq_lt by done. simpl.
    rewrite lookup_total_app_r by lia.
    replace (length h + i - length h) with i by lia.
    destruct (lookup_lt_is_Some_2 tv i Hi) as [f Hf].
    rewrite Hf. f_equal. by apply list_lookup_total_correct.
  - rewrite lookup_seq_ge by lia. simpl. symmetry.
    apply lookup_ge_None. lia.
Qed.

Lemma program_functions_prefix h h' p :
  Forall (λ l, l < length h) (functions p) → h `prefix_of` h' →
  program_functions h' p = program_functions h p.
Proof.
  intros Hwf [k ->]. unfold program_functions.
  apply Forall_fmap_ext_1. eapply Forall_impl; [exact Hwf|].
  intros l Hl. simpl in *. by rewrite lookup_total_app_l.
Qed.

(** The number of positions at which two lists of Functions have different
    bodies. *)
Lemma body_differences_insert : ∀ (tv : list Function) i body,
  body_differences tv
    (<[i := mkFunction (fn_name (tv !!! i)) (fn_args (tv !!! i)) body]> tv) ≤ 1.
Proof.
  assert (Hsame : ∀ tv : list Function, body_differences tv tv = 0).
  { induction tv as [|f tv IH]; [done|]. unfold body_differences in *.
    change (zip (f :: tv) (f :: tv)) with ((f, f) :: zip tv tv).
    rewrite filter_cons_False; [done|]. simpl. intros H. by apply H. }
  induction tv as [|f tv IH]; intros i body; [unfold body_differences; simpl; lia|].
  destruct i as [|i].
  - specialize (Hsame tv). unfold body_differences in *.
    change (<[0:=?x]> (f :: tv)) with (x :: tv).
    change (zip (f :: tv) (?x :: tv)) with ((f, x) :: zip tv tv).
    rewrite filter_cons. case_decide; simpl; lia.
  - specialize (IH i body). unfold body_differences in *.
    change (<[S i:=?x]> (f :: tv)) with (f :: <[i:=x]> tv).
    change ((f :: tv) !!! S i) with (tv !!! i).
    change (zip (f :: tv) (f :: ?l)) with ((f, f) :: zip tv l).
    rewrite filter_cons_False; [done|]. simpl. intros H. by apply H.
Qed.

(** ** Body recovery *)

Section RecoveryProperties.

Context {ext : Externals}.

Lemma parse_loop_S fuel code :
  parse_loop (S fuel) code =
  match ast_parse code with
  | Parsed tree => Ok (tree, code)
  | SyntaxError (Some lineno) => parse_loop fuel (truncate code lineno)
  | SyntaxError None =>
      Raise (TypeError (py "unsupported operand type(s) for -: 'NoneType' and 'int'"))
  | ParseFailure e => Raise e
  end.
Proof. done. Qed.

Lemma trim_function_body_nothing fuel g tree :
  g ≠ [] →
  parse_loop fuel (py "def fake_function_header():" ++ NL ++ g)
    = Ok (tree, []) →
  _trim_function_body fuel g = Ok [].
Proof. unfold _trim_function_body. destruct g; [done|]. by intros _ ->. Qed.

Lemma trim_function_body_parsed fuel g tree code end_line :
  g ≠ [] →
  parse_loop fuel (py "def fake_function_header():" ++ NL ++ g)
    = Ok (tree, code) →
  code ≠ [] →
  visit fake_function_header tree None = Some end_line →
  _trim_function_body fuel g
    = Ok (join NL (py_slice (splitlines code) 1 end_line) ++ NL ++ NL).
Proof.
  unfold _trim_function_body. destruct g; [done|]. intros _ -> Hc ->.
  by destruct code.
Qed.





(** C8, amended: with CPython's answers on the texts met on the way, body
    recovery returns the empty text on the fragment ["return 1\nif True\n"]
    (its unindented first line is rejected, then the header alone), and on
    the indented fragment ["  return 1\n  if True\n"] it returns exactly
    ["  return 1\n\n"]. *)
Theorem trim_malformed_trailing_fragment (fuel : nat) (empty tree : node) :
  let hdr := py "def fake_function_header():" in
  ast_parse (hdr ++ NL ++ py "return 1" ++ NL ++ py "if True" ++ NL)
    = SyntaxError (Some 2%Z) →
  ast_parse hdr = SyntaxError (Some 1%Z) →
  ast_parse [] = Parsed empty →
  ast_parse (hdr ++ NL ++ py "  return 1" ++ NL ++ py "  if True" ++ NL)
    = SyntaxError (Some 3%Z) →
  ast_parse (hdr ++ NL ++ py "  return 1") = Parsed tree →
  visit fake_function_header tree None = Some 2%Z →
  3 ≤ fuel →
  _trim_function_body fuel (py "return 1" ++ NL ++ py "if True" ++ NL)
    = Ok []
  ∧ _trim_function_body fuel (py "  return 1" ++ NL ++ py "  if True" ++ NL)
    = Ok (py "  return 1" ++ NL ++ NL).
Proof.
  intros hdr H1 H2 H3 H4 H5 H6 Hfuel. subst hdr.
  destruct fuel as [|[|[|fuel]]]; try lia.
  split.
  - apply (trim_function_body_nothing _ _ empty); [done|].
    rewrite parse_loop_S, H1.
    replace (truncate _ 2) with (py "def fake_function_header():")
      by (by vm_compute).
    rewrite parse_loop_S, H2.
    replace (truncate _ 1) with (@nil N) by (by vm_compute).
    by rewrite parse_loop_S, H3.
  - rewrite (trim_function_body_parsed _ _ tree
               (py "def fake_function_header():" ++ NL ++ py "  return 1") 2%Z);
      [by vm_compute|done| |done|done].
    rewrite parse_loop_S, H4.
    replace (truncate _ 3)
      with (py "def fake_function_header():" ++ NL ++ py "  return 1")
      by (by vm_compute).
    by rewrite parse_loop_S, H5.
Qed.

End RecoveryProperties.


(** On the one-line fragment ["  if x:\r\n"] the body of the loop runs four
    times: more often than the candidate has lines, and within the bound. *)
Lemma trim_loop_crlf_fragment :
  line_count (py "  if x:" ++ [13%N; 10%N]) = 1
  ∧ parse_loop (ext := crlf_externals) 3
      (py "def fake_function_header():" ++ NL ++ py "  if x:" ++ [13%N; 10%N])
    = OutOfFuel
  ∧ parse_loop (ext := crlf_externals) 4
      (py "def fake_function_header():" ++ NL ++ py "  if x:" ++ [13%N; 10%N])
    = Ok (Node [], []).
Proof. by vm_compute. Qed.



(** C8, as it is written, fails: the lines of the fragment
    ["return 1\nif True\n"] are not indented, CPython rejects the first of
    them, and nothing is recovered. *)
Lemma trim_unindented_fragment_is_empty :
  _trim_function_body (ext := sample_externals [] []) 3
    (py "return 1" ++ NL ++ py "if True" ++ NL) = Ok []
  ∧ _trim_function_body (ext := sample_externals [] []) 3
      (py "return 1" ++ NL ++ py "if True" ++ NL)
    ≠ Ok (py "return 1" ++ NL ++ NL).
Proof. by vm_compute. Qed.

Lemma trim_malformed_trailing_fragment_witness :
  _trim_function_body (ext := sample_externals [] []) 3
    (py "return 1" ++ NL ++ py "if True" ++ NL) = Ok []
  ∧ _trim_function_body (ext := sample_externals [] []) 3
      (py "  return 1" ++ NL ++ py "  if True" ++ NL)
    = Ok (py "  return 1" ++ NL ++ NL).
Proof.
  apply (trim_malformed_trailing_fragment (ext := sample_externals [] []) 3
           (Node []) (Node [FunctionDef fake_function_header 2 [Node []]]));
    first [by vm_compute | lia].
Defined.

(** ** The sandbox: failures and deadline *)

Section SandboxProperties.

Context {ext : Externals}.

(** [Sandbox.run] spawns one worker, and what it gives its caller is
    decided by that worker's behaviour. *)
Lemma Sandbox_run_unfold program f x t w :
  Sandbox_run program f x t w =
  (run_result (worker (length (processes w)) program f x t),
   set_processes
     (processes w ++ [final_status (worker (length (processes w)) program f x t)]) w).
Proof.
  unfold Sandbox_run, process_start, process_join, process_is_alive,
    process_terminate, queue_get_nowait, run_result, final_status.
  unfold_M. simpl.
  destruct (worker (length (processes w)) program f x t) as [c|]; simpl.
  - rewrite insert_last, lookup_last.
    rewrite bool_decide_eq_false_2 by discriminate.
    destruct (sandbox_target [] c) as [|[result success] q]; simpl;
      by rewrite ?insert_last.
  - rewrite lookup_last. rewrite bool_decide_eq_true_2 by done.
    simpl. by rewrite insert_last.
Qed.


End SandboxProperties.

(** C1 (the code departs from it): on a program whose entry point ends the
    worker process, nothing is put in the queue, [process.join] returns, the
    worker is not alive, and [queue.get_nowait()] raises [queue.Empty] out of
    [Sandbox.run] instead of a failed result being returned. *)
Theorem Sandbox_run_raises_when_worker_dies :
  Sandbox_run (ext := sample_externals [Finished Died] []) exiting_program
    (py "run") (VInt 0) 30 empty_world
  = (Raise QueueEmpty, set_processes [Exited] empty_world).
Proof. by vm_compute. Qed.



(** ** The evaluator: admission, registration, contract violation *)

Section EvaluatorProperties.

Context {ext : Externals}.

Lemma record_score_world self program x out ok scores w o w' :
  record_score self program x out ok scores w = (o, w') → w' = w.
Proof.
  unfold record_score. unfold_M.
  destruct (admitted _ _ _ _); [destruct (negb _)|]; by intros [= _ <-].
Qed.

Lemma record_score_ok self program x out ok scores w scores' w' :
  record_score self program x out ok scores w = (Ok scores', w') →
  (ok = true ∧ _calls_ancestor program (_function_to_evolve self) = false
   ∧ out ≠ VNone ∧ isinstance_int_float out = true
   ∧ scores' = <[py_str x := out]> scores)
  ∨ (¬ (ok = true ∧ _calls_ancestor program (_function_to_evolve self) = false
        ∧ out ≠ VNone)
     ∧ scores' = scores).
Proof.
  unfold record_score, admitted. unfold_M.
  destruct ok; simpl.
  2:{ intros [= <- _]. right. split; [|done]. by intros [? _]. }
  destruct (_calls_ancestor _ _); simpl.
  { intros [= <- _]. right. split; [|done]. by intros (_ & ? & _). }
  destruct (bool_decide_reflect (out = VNone)) as [->|Hne]; simpl.
  { intros [= <- _]. right. split; [|done]. by intros (_ & _ & ?). }
  destruct (isinstance_int_float out); simpl; [|done].
  intros [= <- _]. by left.
Qed.

(** The loop leaves the store and the database alone and spawns one
    worker per input it reaches. *)
Lemma score_inputs_frame self program : ∀ inputs scores w o w',
  score_inputs self program inputs scores w = (o, w') →
  heap w' = heap w ∧ database w' = database w
  ∧ length (processes w) ≤ length (processes w').
Proof.
  induction inputs as [|x rest IH]; intros scores w o w'; simpl.
  { unfold_M. by intros [= _ <-]. }
  unfold_M. rewrite Sandbox_run_unfold.
  destruct (run_result _) as [[out ok]| |]; try (intros [= _ <-]; simpl;
    rewrite ?length_app; simpl; repeat split; lia).
  destruct (record_score _ _ _ _ _ _ _) as [[s| |] w1] eqn:E;
    apply record_score_world in E; subst w1.
  - intros H. apply IH in H. simpl in H. rewrite length_app in H.
    simpl in H. repeat split; try tauto; lia.
  - intros [= _ <-]. simpl. rewrite length_app. simpl. repeat split; lia.
  - intros [= _ <-]. simpl. rewrite length_app. simpl. repeat split; lia.
Qed.

(** When the loop ends normally, the keys of the score map are those of
    the accepted runs, all of them numeric. *)
Lemma score_inputs_ok self program : ∀ inputs scores w scores' w',
  score_inputs self program inputs scores w = (Ok scores', w') →
  length (processes w') = length (processes w) + length inputs
  ∧ ∀ key, is_Some (scores' !! key) ↔
      is_Some (scores !! key)
      ∨ ∃ i x out, inputs !! i = Some x ∧ py_str x = key
          ∧ accepted_run self program (length (processes w)) i x out
          ∧ isinstance_int_float out = true.
Proof.
  induction inputs as [|x rest IH]; intros scores w scores' w'; simpl.
  { unfold_M. intros [= <- <-]. split; [lia|]. intros key. split; [tauto|].
    intros [?|(i & ? & ? & Hi & _)]; [done|]. by rewrite lookup_nil in Hi. }
  unfold_M. rewrite Sandbox_run_unfold.
  destruct (run_result _) as [[out ok]| |] eqn:Hrun; try done.
  destruct (record_score _ _ _ _ _ _ _) as [[s| |] w1] eqn:E; try done.
  pose proof (record_score_world _ _ _ _ _ _ _ _ _ E) as ->.
  apply record_score_ok in E. intros H. apply IH in H as [Hlen Hkeys].
  simpl in Hlen, Hkeys. rewrite length_app in Hlen, Hkeys. simpl in *.
  split; [lia|]. intros key. rewrite Hkeys. clear Hkeys. split.
  - intros [Hs|(i & y & o & Hi & Hk & Hacc & Hnum)].
    + destruct E as [(-> & Hanc & Hne & Hnum & ->)|[_ ->]]; [|by left].
      destruct (decide (py_str x = key)) as [Heq|Hneq].
      * right. exists 0, x, out. simpl. repeat split; try done.
        by rewrite Nat.add_0_r.
      * left. by rewrite lookup_insert_ne in Hs.
    + right. exists (S i), y, o. simpl. repeat split; try done;
        destruct Hacc as (Hr & ? & ?); try done.
      by replace (length (processes w) + S i) with (length (processes w) + 1 + i) by lia.
  - intros [Hs|(i & y & o & Hi & Hk & Hacc & Hnum)].
    + left. destruct E as [(_ & _ & _ & _ & ->)|[_ ->]]; [|done].
      destruct (decide (py_str x = key)) as [->|Hneq].
      * rewrite lookup_insert_eq. by eexists.
      * by rewrite lookup_insert_ne.
    + destruct i as [|i]; simpl in Hi.
      * injection Hi as ->. left.
        destruct Hacc as (Hr & Hanc & Hne). rewrite Nat.add_0_r in Hr.
        rewrite Hr in Hrun. injection Hrun as <- <-.
        destruct E as [(_ & _ & _ & _ & ->)|[Hn ->]]; [|by destruct Hn].
        rewrite Hk, lookup_insert_eq. by eexists.
      * right. exists i, y, o. repeat split; try done;
          destruct Hacc as (Hr & ? & ?); try done.
        by replace (length (processes w) + 1 + i)
          with (length (processes w) + S i) by lia.
Qed.

Lemma score_inputs_app self program : ∀ pre post scores w,
  score_inputs self program (pre ++ post) scores w =
  match score_inputs self program pre scores w with
  | (Ok s, w1) => score_inputs self program post s w1
  | (Raise e, w1) => (Raise e, w1)
  | (OutOfFuel, w1) => (OutOfFuel, w1)
  end.
Proof.
  induction pre as [|x pre IH]; intros post scores w; simpl; [done|].
  unfold_M.
  destruct (Sandbox_run _ _ _ _ _) as [[[out ok]| |] w1]; try done.
  destruct (record_score _ _ _ _ _ _ _) as [[s| |] w2];
    first [done | apply IH].
Qed.

Lemma score_inputs_numeric self program : ∀ inputs scores w scores' w',
  score_inputs self program inputs scores w = (Ok scores', w') →
  ∀ i x out, inputs !! i = Some x →
    accepted_run self program (length (processes w)) i x out →
    isinstance_int_float out = true.
Proof.
  induction inputs as [|x rest IH]; intros scores w scores' w'; simpl.
  { intros _ i ? ? Hi. by rewrite lookup_nil in Hi. }
  unfold_M. rewrite Sandbox_run_unfold.
  destruct (run_result _) as [[out ok]| |] eqn:Hrun; try done.
  destruct (record_score _ _ _ _ _ _ _) as [[s| |] w1] eqn:E; try done.
  pose proof (record_score_world _ _ _ _ _ _ _ _ _ E) as ->.
  apply record_score_ok in E. intros H i y o Hi (Hr & Hanc & Hne).
  destruct i as [|i]; simpl in Hi.
  - injection Hi as ->. rewrite Nat.add_0_r in Hr.
    rewrite Hr in Hrun. injection Hrun as <- <-.
    destruct E as [(_ & _ & _ & Hnum & _)|[Hn _]]; [done|by destruct Hn].
  - eapply (IH _ _ _ _ H i y o Hi). simpl. rewrite length_app. simpl.
    repeat split; try done.
    by replace (length (processes w) + 1 + i) with (length (processes w) + S i) by lia.
Qed.

(** Assembly extends the store and touches neither workers nor database. *)
Lemma sample_to_program_frame fuel g v template fte w o w1 :
  _sample_to_program fuel g v template fte w = (o, w1) →
  heap w `prefix_of` heap w1 ∧ processes w1 = processes w
  ∧ database w1 = database w.
Proof.
  unfold _sample_to_program, deepcopy, get_function, set_body, program_str.
  unfold_M.
  destruct (_trim_function_body fuel g) as [b| |];
    try by intros [= _ <-].
  destruct (deepcopy_functions ∅ (functions template) (heap w)) as [r h1] eqn:E.
  simpl.
  apply (deepcopy_functions_fresh (length (heap w))) in E as [Hp Hr];
    [|lia|by intros ? ?; rewrite lookup_empty].
  destruct (list_find _ r) as [[i l]|] eqn:F; simpl.
  - intros [= _ <-]. simpl. split; [|done].
    apply list_find_Some in F as (Hl & _).
    rewrite Forall_lookup in Hr. specialize (Hr _ _ Hl). simpl in Hr.
    destruct Hp as [k ->]. rewrite insert_app_r_alt by lia.
    by apply prefix_app_r.
  - by intros [= _ <-].
Qed.

(** What a call of [analyse] that returns went through: the assembly, then
    the loop, then the registration of a score map that is not empty. *)
Lemma analyse_returns fuel self sample island version w w' :
  analyse fuel self sample island version w = (Ok tt, w') →
  ∃ new_function program w1 scores w2,
    _sample_to_program fuel sample version (_template self)
      (_function_to_evolve self) w
      = (Ok (new_function, program), w1)
    ∧ score_inputs self program (_inputs self) ∅ w1 = (Ok scores, w2)
    ∧ processes w1 = processes w
    ∧ database w' =
        database w ++ (if decide (scores = ∅) then []
                       else [mkRegistration new_function island scores]).
Proof.
  unfold analyse. unfold_M.
  destruct (_sample_to_program _ _ _ _ _ _) as [[[fn program]| |] w1] eqn:E1;
    try done.
  destruct (score_inputs _ _ _ _ _) as [[scores| |] w2] eqn:E2; try done.
  intros H. exists fn, program, w1, scores, w2.
  destruct (sample_to_program_frame _ _ _ _ _ _ _ _ E1) as (_ & Hp & Hd).
  destruct (score_inputs_frame _ _ _ _ _ _ _ E2) as (_ & Hd2 & _).
  repeat split; try done.
  destruct (decide (scores = ∅)).
  - injection H as <-. by rewrite app_nil_r, Hd2, Hd.
  - unfold register_program in H. injection H as <-. simpl.
    by rewrite Hd2, Hd.
Qed.

(** C2, amended: when [analyse] returns, the score map (forwarded to
    [register_program] unless it is empty) has an entry under a key exactly
    when some configured test input with that string representation had a
    run that returned success, the names called in the assembled program
    include none that starts with [<function_to_evolve>_v] (digits or not
    after it), and the run's output is a number other than [None]. *)
Theorem score_map_admission fuel self sample island version w w' :
  analyse fuel self sample island version w = (Ok tt, w') →
  ∃ new_function program scores,
    (_sample_to_program fuel sample version (_template self)
       (_function_to_evolve self) w).1
      = Ok (new_function, program)
    ∧ database w' =
        database w ++ (if decide (scores = ∅) then []
                       else [mkRegistration new_function island scores])
    ∧ ∀ key, is_Some (scores !! key) ↔
        ∃ i x out, _inputs self !! i = Some x ∧ py_str x = key
          ∧ run_result (worker (length (processes w) + i) program
                          (_function_to_run self) x (_timeout_seconds self))
            = Ok (out, true)
          ∧ _calls_ancestor program (_function_to_evolve self) = false
          ∧ out ≠ VNone
          ∧ isinstance_int_float out = true.
Proof.
  intros H. apply analyse_returns in H
    as (fn & program & w1 & scores & w2 & E1 & E2 & Hp & Hd).
  exists fn, program, scores. rewrite E1. repeat split; try done.
  - intros Hs. apply score_inputs_ok in E2 as [_ Hk]. apply Hk in Hs.
    destruct Hs as [Hs|(i & x & out & Hi & Hx & (Hr & Ha & Hn) & Hnum)].
    + rewrite lookup_empty in Hs. by destruct Hs.
    + rewrite Hp in Hr. by exists i, x, out.
  - intros (i & x & out & Hi & Hx & Hr & Ha & Hn & Hnum).
    apply score_inputs_ok in E2 as [_ Hk]. apply Hk. right.
    exists i, x, out. rewrite Hp. by repeat split.
Qed.

(** C5, amended: when [analyse] returns, it has invoked [register_program]
    once, with the mutated Function, the island identifier and the score
    map, if some test input's run passed the three checks, and it has not
    invoked it if every test input failed or was filtered out.  (A call that
    raises invokes nothing.) *)
Theorem register_program_iff_accepted fuel self sample island version w w' :
  analyse fuel self sample island version w = (Ok tt, w') →
  ∃ new_function program w1 scores w2,
    _sample_to_program fuel sample version (_template self)
      (_function_to_evolve self) w
      = (Ok (new_function, program), w1)
    ∧ score_inputs self program (_inputs self) ∅ w1 = (Ok scores, w2)
    ∧ ((∃ i x out, _inputs self !! i = Some x
          ∧ accepted_run self program (length (processes w)) i x out) →
       scores ≠ ∅
       ∧ database w' = database w ++ [mkRegistration new_function island scores])
    ∧ ((∀ i x out, _inputs self !! i = Some x →
          ¬ accepted_run self program (length (processes w)) i x out) →
       database w' = database w).
Proof.
  intros H. apply analyse_returns in H
    as (fn & program & w1 & scores & w2 & E1 & E2 & Hp & Hd).
  exists fn, program, w1, scores, w2. repeat split; try done.
  - intros ->. destruct H as (i & x & out & Hi & Hacc).
    rewrite <- Hp in Hacc.
    pose proof (score_inputs_numeric _ _ _ _ _ _ _ E2 i x out Hi Hacc) as Hnum.
    apply score_inputs_ok in E2 as [_ Hk].
    assert (is_Some ((∅ : gmap pystr PyVal) !! py_str x)) as [? Hs].
    { apply Hk. right. by exists i, x, out. }
    by rewrite lookup_empty in Hs.
  - destruct (decide (scores = ∅)) as [->|Hne]; [|done].
    destruct H as (i & x & out & Hi & Hacc). rewrite <- Hp in Hacc.
    pose proof (score_inputs_numeric _ _ _ _ _ _ _ E2 i x out Hi Hacc) as Hnum.
    apply score_inputs_ok in E2 as [_ Hk].
    assert (is_Some ((∅ : gmap pystr PyVal) !! py_str x)) as [? Hs].
    { apply Hk. right. by exists i, x, out. }
    by rewrite lookup_empty in Hs.
  - intros Hnone. destruct (decide (scores = ∅)) as [->|Hne].
    { by rewrite app_nil_r in Hd. }
    exfalso. apply Hne. apply map_eq. intros key. rewrite lookup_empty.
    apply eq_None_not_Some. intros Hs.
    apply score_inputs_ok in E2 as [_ Hk]. apply Hk in Hs.
    destruct Hs as [Hs|(i & x & out & Hi & _ & Hacc & _)].
    + rewrite lookup_empty in Hs. by destruct Hs.
    + rewrite Hp in Hacc. by apply (Hnone i x out).
Qed.

(** C6: if the loop reaches a test input whose run returns success, the
    assembled program calls no ancestor, and the output is neither [None] nor
    a number, then [analyse] raises the [ValueError] at once: the call ends in
    the world left by that run, no further worker is spawned and nothing is
    registered. *)
Theorem analyse_raises_on_non_numeric fuel self sample island version w
    new_function program w1 pre x post scores w2 out w3 :
  _inputs self = pre ++ x :: post →
  _sample_to_program fuel sample version (_template self)
    (_function_to_evolve self) w
    = (Ok (new_function, program), w1) →
  score_inputs self program pre ∅ w1 = (Ok scores, w2) →
  Sandbox_run program (_function_to_run self) x (_timeout_seconds self) w2
    = (Ok (out, true), w3) →
  _calls_ancestor program (_function_to_evolve self) = false →
  out ≠ VNone →
  isinstance_int_float out = false →
  analyse fuel self sample island version w
    = (Raise (ValueError (py "@function.run did not return an int/float score.")),
       w3)
  ∧ database w3 = database w
  ∧ length (processes w3) = length (processes w) + length pre + 1.
Proof.
  intros Hin E1 E2 Hrun Hanc Hne Hnum.
  destruct (sample_to_program_frame _ _ _ _ _ _ _ _ E1) as (_ & Hp & Hd).
  destruct (score_inputs_frame _ _ _ _ _ _ _ E2) as (_ & Hd2 & _).
  destruct (score_inputs_ok _ _ _ _ _ _ _ E2) as [Hlen _].
  split; [|split].
  - unfold analyse. unfold_M. rewrite E1, Hin, score_inputs_app, E2. simpl.
    unfold_M. rewrite Hrun. unfold record_score, admitted. unfold_M.
    rewrite Hanc, Hnum. simpl.
    by rewrite bool_decide_eq_false_2.
  - rewrite Sandbox_run_unfold in Hrun. injection Hrun as _ <-. simpl.
    by rewrite Hd2, Hd.
  - rewrite Sandbox_run_unfold in Hrun. injection Hrun as _ <-. simpl.
    rewrite length_app, Hlen, Hp. simpl. lia.
Qed.

(** C9: if [analyse] raises (the contract violation or anything else), the
    call has left the database as it was: [register_program] has not been
    invoked, whatever scores earlier test inputs had produced. *)
Theorem analyse_raise_leaves_database fuel self sample island version w e w' :
  analyse fuel self sample island version w = (Raise e, w') →
  database w' = database w.
Proof.
  unfold analyse. unfold_M.
  destruct (_sample_to_program _ _ _ _ _ _) as [[[fn program]| |] w1] eqn:E1;
    apply sample_to_program_frame in E1 as (_ & _ & Hd);
    try by intros [= _ <-].
  destruct (score_inputs _ _ _ _ _) as [[scores| |] w2] eqn:E2;
    apply score_inputs_frame in E2 as (_ & Hd2 & _);
    try (intros [= _ <-]; by rewrite Hd2).
  by destruct (decide (scores = ∅)).
Qed.

(** An entry of the score map is kept by the rest of the loop when no
    remaining input has its key. *)
Lemma score_inputs_other_keys self program key : ∀ inputs scores w scores' w',
  score_inputs self program inputs scores w = (Ok scores', w') →
  (∀ y, y ∈ inputs → py_str y ≠ key) →
  scores' !! key = scores !! key.
Proof.
  induction inputs as [|x rest IH]; intros scores w scores' w'; simpl.
  { unfold_M. by intros [= <- _]. }
  unfold_M.
  destruct (Sandbox_run _ _ _ _ _) as [[[out ok]| |] w1]; try done.
  destruct (record_score _ _ _ _ _ _ _) as [[s| |] w2] eqn:E; try done.
  apply record_score_ok in E. intros H Hkeys.
  rewrite (IH _ _ _ _ H) by (intros y Hy; apply Hkeys; by right).
  destruct E as [(_ & _ & _ & _ & ->)|[_ ->]]; [|done].
  apply lookup_insert_ne, Hkeys. by left.
Qed.

(** C10: when the loop of [analyse] reaches a test input whose run returns
    success with [True] or [False] and the assembled program calls no
    ancestor, [analyse] raises nothing for it: it goes on with the remaining
    inputs, the boolean being in the score map under the input's string
    representation; and when the rest of the loop ends, [analyse] returns and
    has registered the score map, which has an entry under that key, the
    boolean itself unless a later input has the same string representation. *)
Theorem boolean_output_is_recorded fuel self sample island version w
    new_function program w1 pre x post scores w2 b w3 :
  _inputs self = pre ++ x :: post →
  _sample_to_program fuel sample version (_template self)
    (_function_to_evolve self) w
    = (Ok (new_function, program), w1) →
  score_inputs self program pre ∅ w1 = (Ok scores, w2) →
  Sandbox_run program (_function_to_run self) x (_timeout_seconds self) w2
    = (Ok (VBool b, true), w3) →
  _calls_ancestor program (_function_to_evolve self) = false →
  analyse fuel self sample island version w
    = (scores_per_test ←
         score_inputs self program post (<[py_str x := VBool b]> scores);
       if decide (scores_per_test = ∅) then mret tt
       else register_program new_function island scores_per_test) w3
  ∧ ∀ final w4,
      score_inputs self program post (<[py_str x := VBool b]> scores) w3
        = (Ok final, w4) →
      analyse fuel self sample island version w
        = (Ok tt,
           set_database
             (database w ++ [mkRegistration new_function island final]) w4)
      ∧ is_Some (final !! py_str x)
      ∧ ((∀ y, y ∈ post → py_str y ≠ py_str x) →
         final !! py_str x = Some (VBool b)).
Proof.
  intros Hin E1 E2 Hrun Hanc.
  assert (Hrec : record_score self program x (VBool b) true scores w3
                 = (Ok (<[py_str x := VBool b]> scores), w3)).
  { unfold record_score, admitted. unfold_M. by rewrite Hanc. }
  assert (Hloop : analyse fuel self sample island version w
    = (scores_per_test ←
         score_inputs self program post (<[py_str x := VBool b]> scores);
       if decide (scores_per_test = ∅) then mret tt
       else register_program new_function island scores_per_test) w3).
  { unfold analyse. unfold_M. rewrite E1, Hin, score_inputs_app, E2. simpl.
    unfold_M. by rewrite Hrun, Hrec. }
  split; [exact Hloop|]. intros final w4 E3.
  assert (Hsome : is_Some (final !! py_str x)).
  { apply (score_inputs_ok _ _ _ _ _ _ _ E3). left.
    rewrite lookup_insert_eq. by eexists. }
  split; [|split; [done|]].
  - rewrite Hloop. unfold_M. rewrite E3.
    destruct (decide (final = ∅)) as [->|_].
    { rewrite lookup_empty in Hsome. by destruct Hsome. }
    unfold register_program. do 2 f_equal.
    destruct (sample_to_program_frame _ _ _ _ _ _ _ _ E1) as (_ & _ & Hd1).
    destruct (score_inputs_frame _ _ _ _ _ _ _ E2) as (_ & Hd2 & _).
    destruct (score_inputs_frame _ _ _ _ _ _ _ E3) as (_ & Hd3 & _).
    rewrite Sandbox_run_unfold in Hrun. injection Hrun as _ <-.
    simpl in Hd3. by rewrite Hd3, Hd2, Hd1.
  - intros Hkeys.
    rewrite (score_inputs_other_keys _ _ _ _ _ _ _ _ E3 Hkeys).
    apply lookup_insert_eq.
Qed.

End EvaluatorProperties.

(** C2, as it is written, fails: the entry point calls [evolve_value], a
    name that starts with [evolve_v] and has no digits after it; the run of
    input 1 succeeds with the number 5 and no called name matches
    [evolve_v<digits>], and yet no score is forwarded. *)
Lemma admission_rejects_unversioned_prefix :
  forallb (λ name, negb (matches_version_pattern (py "evolve") name))
    [py "evolve_value"; py "evolve"] = true
  ∧ run_result (workers [Finished (Returned (VInt 5))] 0
                  (sample_render (heap helper_world)) (py "run") (VInt 1) 30)
    = Ok (VInt 5, true)
  ∧ (helper_analyse [Finished (Returned (VInt 5))] [VInt 1]).1 = Ok tt
  ∧ database (helper_analyse [Finished (Returned (VInt 5))] [VInt 1]).2 = [].
Proof. by vm_compute. Qed.

Lemma score_map_admission_witness :
  sample_analyse run_dividing runs_one_failure two_inputs
    = (Ok tt, (sample_analyse run_dividing runs_one_failure two_inputs).2)
  ∧ ∃ new_function program scores,
      (_sample_to_program (ext := sample_externals runs_one_failure [py "evolve"])
         3 sample_fragment None sample_template (py "evolve")
         (sample_world run_dividing)).1 = Ok (new_function, program)
      ∧ database (sample_analyse run_dividing runs_one_failure two_inputs).2 =
          database (sample_world run_dividing)
          ++ (if decide (scores = ∅) then []
              else [mkRegistration new_function None scores])
      ∧ ∀ key, is_Some (scores !! key) ↔
          ∃ i x out, two_inputs !! i = Some x ∧ sample_str x = key
            ∧ run_result (workers runs_one_failure
                            (length (processes (sample_world run_dividing)) + i)
                            program (py "run") x 30)
              = Ok (out, true)
            ∧ _calls_ancestor (ext := sample_externals runs_one_failure [py "evolve"])
                program (py "evolve") = false
            ∧ out ≠ VNone
            ∧ isinstance_int_float out = true.
Proof.
  split; [by vm_compute|].
  apply (score_map_admission (ext := sample_externals runs_one_failure [py "evolve"])
           3 (sample_evaluator two_inputs) sample_fragment None None
           (sample_world run_dividing)
           (sample_analyse run_dividing runs_one_failure two_inputs).2).
  by vm_compute.
Defined.

(** C5, as it is written, fails: input 1 produces an accepted score, input
    2 returns a text, the call raises and nothing is registered. *)
Lemma accepted_score_without_registration :
  accepted_run (ext := sample_externals runs_mixed [py "evolve"])
    (sample_evaluator two_inputs) (sample_program run_mixed) 0 0 (VInt 1) (VInt 5)
  ∧ (sample_analyse run_mixed runs_mixed two_inputs).1
    = Raise (ValueError (py "@function.run did not return an int/float score."))
  ∧ database (sample_analyse run_mixed runs_mixed two_inputs).2 = [].
Proof. repeat split; by vm_compute. Qed.

Lemma register_program_iff_accepted_witness :
  sample_analyse run_dividing runs_one_failure two_inputs
    = (Ok tt, (sample_analyse run_dividing runs_one_failure two_inputs).2)
  ∧ ∃ new_function program w1 scores w2,
      _sample_to_program (ext := sample_externals runs_one_failure [py "evolve"])
        3 sample_fragment None sample_template (py "evolve")
        (sample_world run_dividing) = (Ok (new_function, program), w1)
      ∧ score_inputs (ext := sample_externals runs_one_failure [py "evolve"])
          (sample_evaluator two_inputs) program two_inputs ∅ w1
        = (Ok scores, w2)
      ∧ ((∃ i x out, two_inputs !! i = Some x
            ∧ accepted_run (ext := sample_externals runs_one_failure [py "evolve"])
                (sample_evaluator two_inputs) program
                (length (processes (sample_world run_dividing))) i x out) →
         scores ≠ ∅
         ∧ database (sample_analyse run_dividing runs_one_failure two_inputs).2
           = database (sample_world run_dividing)
             ++ [mkRegistration new_function None scores])
      ∧ ((∀ i x out, two_inputs !! i = Some x →
            ¬ accepted_run (ext := sample_externals runs_one_failure [py "evolve"])
                (sample_evaluator two_inputs) program
                (length (processes (sample_world run_dividing))) i x out) →
         database (sample_analyse run_dividing runs_one_failure two_inputs).2
         = database (sample_world run_dividing)).
Proof.
  split; [by vm_compute|].
  apply (register_program_iff_accepted
           (ext := sample_externals runs_one_failure [py "evolve"])
           3 (sample_evaluator two_inputs) sample_fragment None None
           (sample_world run_dividing)
           (sample_analyse run_dividing runs_one_failure two_inputs).2).
  by vm_compute.
Defined.

Lemma analyse_raises_on_non_numeric_witness :
  sample_analyse run_mixed runs_mixed two_inputs
    = (Raise (ValueError (py "@function.run did not return an int/float score.")),
       (sample_analyse run_mixed runs_mixed two_inputs).2)
  ∧ database (sample_analyse run_mixed runs_mixed two_inputs).2
    = database (sample_world run_mixed)
  ∧ length (processes (sample_analyse run_mixed runs_mixed two_inputs).2)
    = length (processes (sample_world run_mixed)) + length [VInt 1] + 1.
Proof.
  eapply (analyse_raises_on_non_numeric
            (ext := sample_externals runs_mixed [py "evolve"])
            3 (sample_evaluator two_inputs) sample_fragment None None
            (sample_world run_mixed)
            _ _ _ [VInt 1] (VInt 2) [] _ _ (VStr (py "ok")) _).
  - reflexivity.
  - lazy. reflexivity.
  - lazy. reflexivity.
  - lazy. reflexivity.
  - reflexivity.
  - discriminate.
  - reflexivity.
Defined.

Lemma analyse_raise_leaves_database_witness :
  sample_analyse run_mixed runs_mixed two_inputs
    = (Raise (ValueError (py "@function.run did not return an int/float score.")),
       (sample_analyse run_mixed runs_mixed two_inputs).2)
  ∧ database (sample_analyse run_mixed runs_mixed two_inputs).2
    = database (sample_world run_mixed).
Proof.
  assert (H : sample_analyse run_mixed runs_mixed two_inputs
    = (Raise (ValueError (py "@function.run did not return an int/float score.")),
       (sample_analyse run_mixed runs_mixed two_inputs).2)) by (by vm_compute).
  split; [exact H|].
  exact (analyse_raise_leaves_database
           (ext := sample_externals runs_mixed [py "evolve"])
           3 (sample_evaluator two_inputs) sample_fragment None None
           (sample_world run_mixed) _ _ H).
Defined.

Lemma boolean_output_is_recorded_witness :
  let ext := sample_externals
               [Finished (Returned (VBool true)); Finished (Returned (VBool false))]
               [py "evolve"] in
  let self := sample_evaluator two_inputs in
  let w := sample_world run_boolean in
  let program := sample_program run_boolean in
  let w1 := (_sample_to_program 3 sample_fragment None sample_template
               (py "evolve") w).2 in
  let w3 := set_processes [Exited] w1 in
  let w4 := set_processes [Exited; Exited] w1 in
  let final := <[py "2" := VBool false]> (<[py "1" := VBool true]> ∅) in
  (two_inputs = [] ++ VInt 1 :: [VInt 2]
   ∧ _sample_to_program 3 sample_fragment None sample_template (py "evolve") w
     = (Ok (2, program), w1)
   ∧ score_inputs self program [] ∅ w1 = (Ok ∅, w1)
   ∧ Sandbox_run program (py "run") (VInt 1) 30 w1 = (Ok (VBool true, true), w3)
   ∧ _calls_ancestor program (py "evolve") = false
   ∧ score_inputs self program [VInt 2] (<[py "1" := VBool true]> ∅) w3
     = (Ok final, w4))
  ∧ analyse 3 self sample_fragment None None w
    = (scores_per_test ←
         score_inputs self program [VInt 2] (<[py "1" := VBool true]> ∅);
       if decide (scores_per_test = ∅) then mret tt
       else register_program 2 None scores_per_test) w3
  ∧ analyse 3 self sample_fragment None None w
    = (Ok tt, set_database (database w ++ [mkRegistration 2 None final]) w4)
  ∧ is_Some (final !! py "1")
  ∧ ((∀ y, y ∈ [VInt 2] → sample_str y ≠ sample_str (VInt 1)) →
     final !! py "1" = Some (VBool true)).
Proof.
  intros ext self w program w1 w3 w4 final.
  assert (H1 : _inputs self = [] ++ VInt 1 :: [VInt 2]) by reflexivity.
  assert (H2 : _sample_to_program 3 sample_fragment None (_template self)
                 (_function_to_evolve self) w = (Ok (2, program), w1))
    by (by vm_compute).
  assert (H3 : score_inputs self program [] ∅ w1 = (Ok ∅, w1))
    by reflexivity.
  assert (H4 : Sandbox_run program (_function_to_run self) (VInt 1)
                 (_timeout_seconds self) w1 = (Ok (VBool true, true), w3))
    by (by vm_compute).
  assert (H5 : _calls_ancestor program (_function_to_evolve self) = false)
    by (by vm_compute).
  assert (H6 : score_inputs self program [VInt 2]
                 (<[py_str (VInt 1) := VBool true]> ∅) w3 = (Ok final, w4))
    by (by vm_compute).
  split; [done|].
  destruct (boolean_output_is_recorded (ext := ext) 3 self sample_fragment
              None None w 2 program w1 [] (VInt 1) [VInt 2] ∅ w1 true w3
              H1 H2 H3 H4 H5) as [Hgoes Hends].
  split; [exact Hgoes|]. exact (Hends final w4 H6).
Defined.

(** ** The template *)

Section TemplateProperties.

Context {ext : Externals}.

(** The assembled program: the template's Functions, copied in order at
    the end of the store, the first one named [fte] with the new body. *)
Lemma sample_to_program_assembles fuel g v template fte w fn text w1 :
  Forall (λ l, l < length (heap w)) (functions template) →
  NoDup (functions template) →
  _sample_to_program fuel g v template fte w = (Ok (fn, text), w1) →
  ∃ i recovered,
    let body :=
      match v with
      | Some n => rename_function_calls recovered (fte ++ py "_v" ++ format_int n) fte
      | None => recovered
      end in
    let tv := program_functions (heap w) template in
    let new := <[i := mkFunction (fn_name (tv !!! i)) (fn_args (tv !!! i)) body]> tv in
    _trim_function_body fuel g = Ok recovered
    ∧ i < length tv ∧ fn_name (tv !!! i) = fte
    ∧ fn = length (heap w) + i
    ∧ heap w1 = heap w ++ new
    ∧ text = render new.
Proof.
  intros Hwf Hnd.
  unfold _sample_to_program, deepcopy, get_function, set_body, program_str.
  unfold_M.
  destruct (_trim_function_body fuel g) as [b| |]; try done.
  rewrite deepcopy_functions_nodup; [|done|by intros ? ?; rewrite lookup_empty|done].
  simpl. fold (program_functions (heap w) template).
  set (tv := program_functions (heap w) template).
  assert (Hlen : length tv = length (functions template))
    by (unfold tv, program_functions; by rewrite length_fmap).
  rewrite <- Hlen.
  destruct (list_find _ _) as [[i l]|] eqn:F; simpl; [|done].
  apply list_find_Some in F as (Hl & Hname & _).
  apply lookup_seq in Hl as [-> Hi].
  rewrite lookup_total_app_r in Hname by lia.
  replace (length (heap w) + i - length (heap w)) with i in Hname by lia.
  intros [= <- <- <-]. simpl.
  rewrite lookup_total_app_r by lia.
  replace (length (heap w) + i - length (heap w)) with i by lia.
  rewrite insert_app_r_alt by lia.
  replace (length (heap w) + i - length (heap w)) with i by lia.
  exists i, b. repeat split; try done.
  unfold program_functions. simpl. rewrite <- (length_insert tv i) at 1.
  by rewrite program_functions_copy.
Qed.

Lemma analyse_frame fuel self sample island version w o w' :
  analyse fuel self sample island version w = (o, w') →
  heap w `prefix_of` heap w'.
Proof.
  unfold analyse. unfold_M.
  destruct (_sample_to_program _ _ _ _ _ _) as [[[fn program]| |] w1] eqn:E1;
    apply sample_to_program_frame in E1 as (Hp & _ & _);
    try by intros [= _ <-].
  destruct (score_inputs _ _ _ _ _) as [[scores| |] w2] eqn:E2;
    apply score_inputs_frame in E2 as (Hh & _ & _);
    try (intros [= _ <-]; by rewrite Hh).
  destruct (decide (scores = ∅)); unfold register_program;
    intros [= _ <-]; simpl; by rewrite Hh.
Qed.

Lemma analyse_calls_frame fuel self calls : ∀ w,
  heap w `prefix_of` heap (analyse_calls fuel self calls w).
Proof.
  induction calls as [|[[sample island] version] calls IH]; intros w; simpl.
  { done. }
  etransitivity; [|apply IH].
  destruct (analyse _ _ _ _ _ w) as [o w'] eqn:E.
  by apply analyse_frame in E.
Qed.

(** C4, amended: for a template whose Functions are in the store under
    distinct names, after any number of calls of [analyse] the Functions of
    the template, and so its rendered text, are what they were; and the
    program assembled by the next call is built on a copy whose Function
    instances are all new to the store (none is an instance of the template
    or of an earlier assembled program), and is the template with the body of
    the function to evolve replaced by the body that [_trim_function_body]
    recovers from the sample, in which, when a version is given, the calls of
    [<function_to_evolve>_v<version>] are renamed to [<function_to_evolve>]:
    it differs from the template in at most one Function's body (in none when
    that body is the template's). *)
Theorem template_never_mutated fuel (self : Evaluator) calls (w : World) :
  Forall (λ l, l < length (heap w)) (functions (_template self)) →
  NoDup (fn_name <$> program_functions (heap w) (_template self)) →
  program_functions (heap (analyse_calls fuel self calls w)) (_template self)
    = program_functions (heap w) (_template self)
  ∧ program_str (_template self) (analyse_calls fuel self calls w)
    = (Ok (render (program_functions (heap w) (_template self))),
       analyse_calls fuel self calls w)
  ∧ ∀ fuel' sample version new_function text w1,
      _sample_to_program fuel' sample version (_template self)
        (_function_to_evolve self) (analyse_calls fuel self calls w)
        = (Ok (new_function, text), w1) →
      ∃ clone i recovered,
        _trim_function_body fuel' sample = Ok recovered
        ∧ Forall (λ l, length (heap (analyse_calls fuel self calls w)) ≤ l)
            (functions clone)
        ∧ functions clone !! i = Some new_function
        ∧ text = render (program_functions (heap w1) clone)
        ∧ fn_name (program_functions (heap w) (_template self) !!! i)
          = _function_to_evolve self
        ∧ program_functions (heap w1) clone
          = <[i := mkFunction
                     (fn_name (program_functions (heap w) (_template self) !!! i))
                     (fn_args (program_functions (heap w) (_template self) !!! i))
                     match version with
                     | Some v =>
                         rename_function_calls recovered
                           (_function_to_evolve self ++ py "_v" ++ format_int v)
                           (_function_to_evolve self)
                     | None => recovered
                     end]>
              (program_functions (heap w) (_template self))
        ∧ body_differences (program_functions (heap w) (_template self))
            (program_functions (heap w1) clone) ≤ 1
        ∧ program_functions (heap w1) (_template self)
          = program_functions (heap w) (_template self).
Proof.
  intros Hwf Hnames.
  set (wn := analyse_calls fuel self calls w).
  set (tv := program_functions (heap w) (_template self)).
  assert (Hext : heap w `prefix_of` heap wn) by apply analyse_calls_frame.
  assert (Htv : program_functions (heap wn) (_template self) = tv)
    by by apply program_functions_prefix.
  assert (Hwfn : Forall (λ l, l < length (heap wn)) (functions (_template self))).
  { eapply Forall_impl; [exact Hwf|]. intros l Hl. simpl in *.
    apply prefix_length in Hext. lia. }
  assert (Hnd : NoDup (functions (_template self))).
  { unfold program_functions in Hnames. rewrite <- list_fmap_compose in Hnames.
    by apply NoDup_fmap_1 in Hnames. }
  split; [done|]. split; [unfold program_str; by rewrite Htv|].
  intros fuel' sample version fn text w1 E.
  pose proof E as (Hext1 & _ & _)%sample_to_program_frame.
  apply sample_to_program_assembles in E
    as (i & recovered & Htrim & Hi & Hname & -> & Hheap & ->); [|done|done].
  rewrite !Htv in *.
  set (body := match version with
               | Some n => rename_function_calls recovered _ _
               | None => recovered
               end) in *.
  set (new := <[i := _]> tv) in *.
  assert (Hclone : program_functions (heap w1)
            (mkProgram (seq (length (heap wn)) (length tv))) = new).
  { unfold program_functions. simpl. rewrite Hheap.
    replace (length tv) with (length new) by apply length_insert.
    apply program_functions_copy. }
  exists (mkProgram (seq (length (heap wn)) (length tv))), i, recovered. simpl.
  split; [exact Htrim|].
  repeat split.
  - apply Forall_forall. intros l Hl%elem_of_seq. lia.
  - by apply lookup_seq_lt.
  - by rewrite Hclone.
  - done.
  - by rewrite Hclone.
  - rewrite Hclone. apply body_differences_insert.
  - rewrite <- Htv. apply program_functions_prefix; done.
Qed.

End TemplateProperties.

(** C4, as it is written, fails: the body recovered from the sample
    fragment is the body [evolve] has in the template, so the assembled
    program has the template's text and differs from it in no Function's
    body. *)
Lemma assembled_program_may_equal_template :
  (_sample_to_program (ext := sample_externals [] [py "evolve"]) 3
     sample_fragment None sample_template (py "evolve")
     (sample_world run_number)).1
    = Ok (2, sample_render
               (program_functions (heap (sample_world run_number)) sample_template))
  ∧ body_differences
      (program_functions (heap (sample_world run_number)) sample_template)
      (program_functions
         (heap (_sample_to_program (ext := sample_externals [] [py "evolve"]) 3
                  sample_fragment None sample_template (py "evolve")
                  (sample_world run_number)).2)
         (mkProgram [2; 3]))
    = 0.
Proof. by vm_compute. Qed.

Lemma template_never_mutated_witness :
  let ext := sample_externals runs_one_failure [py "evolve"] in
  let self := sample_evaluator two_inputs in
  let w := sample_world run_dividing in
  let wn := analyse_calls 3 self
              [(sample_fragment, None, None); (sample_fragment, Some 0%Z, None)]
              w in
  let tv := program_functions (heap w) sample_template in
  Forall (λ l, l < length (heap w)) (functions sample_template)
  ∧ NoDup (fn_name <$> tv)
  ∧ program_functions (heap wn) sample_template = tv
  ∧ program_str sample_template wn = (Ok (render tv), wn)
  ∧ ∀ fuel' sample version new_function text w1,
      _sample_to_program fuel' sample version sample_template (py "evolve") wn
        = (Ok (new_function, text), w1) →
      ∃ clone i recovered,
        _trim_function_body fuel' sample = Ok recovered
        ∧ Forall (λ l, length (heap wn) ≤ l) (functions clone)
        ∧ functions clone !! i = Some new_function
        ∧ text = render (program_functions (heap w1) clone)
        ∧ fn_name (tv !!! i) = py "evolve"
        ∧ program_functions (heap w1) clone
          = <[i := mkFunction (fn_name (tv !!! i)) (fn_args (tv !!! i))
                     match version with
                     | Some v =>
                         rename_function_calls recovered
                           (py "evolve" ++ py "_v" ++ format_int v) (py "evolve")
                     | None => recovered
                     end]> tv
        ∧ body_differences tv (program_functions (heap w1) clone) ≤ 1
        ∧ program_functions (heap w1) sample_template = tv.
Proof.
  intros ext self w wn tv.
  assert (H1 : Forall (λ l, l < length (heap w)) (functions sample_template)).
  { refine (bool_decide_unpack _ _). by vm_compute. }
  assert (H2 : NoDup (fn_name <$> tv)).
  { refine (bool_decide_unpack _ _). by vm_compute. }
  split; [exact H1|]. split; [exact H2|].
  exact (template_never_mutated (ext := ext) 3 self
           [(sample_fragment, None, None); (sample_fragment, Some 0%Z, None)]
           w H1 H2).
Defined.

(** * Further properties *)

(** ** Body recovery *)

Lemma node_nested_ind (P : node → Prop) :
  (∀ name end_lineno children,
     Forall P children → P (FunctionDef name end_lineno children)) →
  (∀ children, Forall P children → P (Node children)) →
  ∀ n, P n.
Proof.
  intros Hf Hn. fix IH 1. intros [name e children|children].
  - apply Hf. induction children as [|c cs IHcs]; constructor; [apply IH|done].
  - apply Hn. induction children as [|c cs IHcs]; constructor; [apply IH|done].
Qed.

Lemma fold_visit_last target children : ∀ st,
  Forall (λ c, ∀ st, visit target c st =
                 match last (function_ends target c) with
                 | Some e => Some e
                 | None => st
                 end) children →
  fold_left (λ st c, visit target c st) children st =
  match last (flat_map (function_ends target) children) with
  | Some e => Some e
  | None => st
  end.
Proof.
  induction children as [|c cs IH]; intros st Hall; [done|].
  inversion Hall as [|? ? Hc Hcs]; subst. simpl.
  rewrite IH by done. rewrite Hc, last_app.
  by destruct (last (flat_map (function_ends target) cs)).
Qed.

(** X1: the visitor ends with the end line of the last definition of the
    target name that it meets, a definition nested in another or following
    it taking over; where the tree has no such definition the state it
    started with is kept (and the assertion of [function_end_line] fails). *)
Theorem visit_reports_last_definition target n st :
  visit target n st =
  match last (function_ends target n) with
  | Some e => Some e
  | None => st
  end.
Proof.
  revert st. induction n as [name e children IH|children IH]
    using node_nested_ind; intros st; simpl.
  - rewrite fold_visit_last by done. rewrite last_app.
    destruct (last (flat_map (function_ends target) children)); [done|].
    by case_decide.
  - by rewrite fold_visit_last.
Qed.

Lemma splitlines_with_header g :
  splitlines (py "def fake_function_header():" ++ NL ++ g)
  = py "def fake_function_header():" :: splitlines g.
Proof.
  unfold splitlines.
  rewrite splitlines_from_app_breakfree, splitlines_from_NL; [done|].
  unfold breakfree. apply Forall_forall. intros c Hc.
  apply list_elem_of_In in Hc. vm_compute in Hc.
  repeat (destruct Hc as [<-|Hc]; [by vm_compute|]). done.
Qed.

Lemma drop_1_prefix {A} (l L : list A) (x : A) :
  l `prefix_of` x :: L → drop 1 l `prefix_of` L.
Proof.
  intros [k Hk]. destruct l as [|y l]; simpl; [apply prefix_nil|].
  injection Hk as _ ->. by exists k.
Qed.

Section FurtherRecovery.

Context {ext : Externals}.

Lemma parse_loop_keeps_prefix fuel : ∀ code tree code',
  parse_loop fuel code = Ok (tree, code') →
  splitlines code' `prefix_of` splitlines code.
Proof.
  induction fuel as [|fuel IH]; intros code tree code'; simpl; [done|].
  destruct (ast_parse code) as [t|[lineno|]|e]; try done.
  - by intros [= _ <-].
  - intros H. etransitivity; [by eapply IH|apply truncate_lines].
Qed.

(** X2: whatever the parser answers, a body that [_trim_function_body]
    returns is empty or is made of the first lines of the generated code, in
    order and joined by [\n], followed by two [\n]: recovery never invents,
    reorders or skips a line. *)
Theorem trim_returns_first_lines fuel generated_code body :
  _trim_function_body fuel generated_code = Ok body →
  body = []
  ∨ ∃ body_lines, body_lines `prefix_of` splitlines generated_code
      ∧ body = join NL body_lines ++ NL ++ NL.
Proof.
  unfold _trim_function_body. destruct generated_code as [|c g].
  { intros [= <-]. by left. }
  destruct (parse_loop _ _) as [[tree code]| |] eqn:Hloop; try done.
  destruct code as [|c' code'].
  { intros [= <-]. by left. }
  destruct (function_end_line _) as [end_line| |]; try done.
  intros [= <-]. right. eexists. split; [|done].
  apply parse_loop_keeps_prefix in Hloop.
  rewrite splitlines_with_header in Hloop.
  unfold py_slice.
  replace (slice_bound _ 1) with 1 by done.
  apply drop_1_prefix with (x := py "def fake_function_header():").
  etransitivity; [apply prefix_take|exact Hloop].
Qed.


Lemma parse_loop_rejected e : ∀ linenos code fuel,
  rejected_at code linenos →
  ast_parse (fold_left truncate linenos code) = ParseFailure e →
  length linenos < fuel →
  parse_loop fuel code = Raise e.
Proof.
  induction linenos as [|lineno rest IH]; intros code fuel Hrej Hfail Hfuel;
    (destruct fuel as [|fuel]; [simpl in Hfuel; lia|]); rewrite parse_loop_S.
  - simpl in Hfail. by rewrite Hfail.
  - destruct Hrej as [-> Hrest]. apply IH; [done|done|simpl in Hfuel; lia].
Qed.

(** X4: an exception of the parser that is no [SyntaxError] (CPython 3.11
    raises [ValueError] on a null byte, [RecursionError] on an expression
    nested too deeply) is not caught by the loop, at whichever iteration it
    is raised: after any number of candidates rejected with a syntax error,
    it comes out of [_trim_function_body] and of [analyse], which has then
    copied nothing, run nothing and registered nothing. *)
Theorem analyse_propagates_parser_failure fuel self sample island version w
    linenos e :
  sample ≠ [] →
  rejected_at (py "def fake_function_header():" ++ NL ++ sample) linenos →
  ast_parse (fold_left truncate linenos
               (py "def fake_function_header():" ++ NL ++ sample))
    = ParseFailure e →
  length linenos < fuel →
  _trim_function_body fuel sample = Raise e
  ∧ analyse fuel self sample island version w = (Raise e, w).
Proof.
  intros Hs Hrej Hfail Hfuel.
  assert (Htrim : _trim_function_body fuel sample = Raise e).
  { unfold _trim_function_body. destruct sample; [done|].
    by rewrite (parse_loop_rejected e linenos). }
  split; [done|].
  unfold analyse, _sample_to_program. unfold_M. by rewrite Htrim.
Qed.

End FurtherRecovery.

Lemma trim_returns_first_lines_witness :
  _trim_function_body (ext := sample_externals [] []) 3 sample_fragment
    = Ok (py "  return 1" ++ NL ++ NL)
  ∧ (py "  return 1" ++ NL ++ NL = []
     ∨ ∃ body_lines, body_lines `prefix_of` splitlines sample_fragment
         ∧ py "  return 1" ++ NL ++ NL = join NL body_lines ++ NL ++ NL).
Proof.
  split; [by vm_compute|].
  apply (trim_returns_first_lines (ext := sample_externals [] []) 3
           sample_fragment).
  by vm_compute.
Defined.


Lemma analyse_propagates_parser_failure_witness :
  _trim_function_body (ext := deep_externals) 2 deep_fragment
    = Raise (OtherError (py "RecursionError"))
  ∧ analyse (ext := deep_externals) 2 (sample_evaluator two_inputs)
      deep_fragment None None (sample_world run_number)
    = (Raise (OtherError (py "RecursionError")), sample_world run_number).
Proof.
  apply (analyse_propagates_parser_failure (ext := deep_externals) 2
           (sample_evaluator two_inputs) deep_fragment None None
           (sample_world run_number) [3%Z]).
  - discriminate.
  - split; [by vm_compute|exact I].
  - by vm_compute.
  - simpl. lia.
Defined.

(** The same at the first parse: a null byte in the generated code. *)
Lemma analyse_propagates_null_byte_failure :
  _trim_function_body (ext := null_byte_externals) 1 null_byte_fragment
    = Raise (ValueError (py "source code string cannot contain null bytes"))
  ∧ analyse (ext := null_byte_externals) 1 (sample_evaluator two_inputs)
      null_byte_fragment None None (sample_world run_number)
    = (Raise (ValueError (py "source code string cannot contain null bytes")),
       sample_world run_number).
Proof. by vm_compute. Qed.

(** ** The sandbox *)

Section FurtherSandbox.

Context {ext : Externals}.


(** Whatever the worker does and whether [Sandbox.run] returns or
    raises, the call starts exactly one worker and leaves the earlier ones as
    they were; its own has ended by the deadline, or was still running then
    and [terminate()] has been called on it.  The call does not wait for a
    terminated worker to end. *)
Lemma Sandbox_run_worker program function_to_run test_input timeout_seconds w :
  processes (Sandbox_run program function_to_run test_input
               timeout_seconds w).2
    = processes w
      ++ [final_status (worker (length (processes w)) program function_to_run
                          test_input timeout_seconds)]
  ∧ heap (Sandbox_run program function_to_run test_input
            timeout_seconds w).2 = heap w
  ∧ database (Sandbox_run program function_to_run test_input
                timeout_seconds w).2 = database w.
Proof. by rewrite Sandbox_run_unfold. Qed.

End FurtherSandbox.


(** ** The evaluator *)

Section FurtherEvaluator.

Context {ext : Externals}.



Lemma accepted_run_output self program base i x out out' :
  accepted_run self program base i x out →
  accepted_run self program base i x out' → out = out'.
Proof. intros [H1 _] [H2 _]. rewrite H1 in H2. by injection H2. Qed.

(** The value kept under each key when the loop ends normally. *)
Lemma score_inputs_last_accepted self program w : ∀ inputs scores' w',
  score_inputs self program inputs ∅ w = (Ok scores', w') →
  ∀ key v, scores' !! key = Some v ↔
    last_accepted_run self program (length (processes w)) inputs key v.
Proof.
  induction inputs as [|x pre IH] using rev_ind; intros scores' w'.
  { simpl. unfold_M. intros [= <- _] key v. rewrite lookup_empty. split; [done|].
    intros (i & y & Hi & _). by rewrite lookup_nil in Hi. }
  rewrite score_inputs_app.
  destruct (score_inputs self program pre ∅ w) as [[s1| |] w1] eqn:Epre;
    try done.
  specialize (IH _ _ eq_refl).
  destruct (score_inputs_ok _ _ _ _ _ _ _ Epre) as [Hlen _].
  simpl. unfold_M. rewrite Sandbox_run_unfold, Hlen.
  destruct (run_result _) as [[out ok]| |] eqn:Hrun; try done.
  destruct (record_score _ _ _ _ _ _ _) as [[s| |] w2] eqn:E; try done.
  apply record_score_ok in E. intros [= <- _] key v.
  assert (Hlast : ∀ y, (pre ++ [x]) !! length pre = Some y → y = x).
  { intros y. rewrite lookup_app_r, Nat.sub_diag by lia. by intros [= <-]. }
  assert (Hbeyond : ∀ j y, length pre < j → (pre ++ [x]) !! j = Some y → False).
  { intros j y Hj Hy. apply lookup_lt_Some in Hy.
    rewrite length_app in Hy. simpl in Hy. lia. }
  destruct (decide (ok = true
              ∧ _calls_ancestor program (_function_to_evolve self) = false
              ∧ out ≠ VNone ∧ py_str x = key)) as [(-> & Hanc & Hne & Hkey)|Hno].
  - (* the last input is accepted under this key *)
    assert (Hacc : accepted_run self program (length (processes w))
                     (length pre) x out) by done.
    destruct E as [(_ & _ & _ & _ & ->)|[Hn _]]; [|by destruct Hn].
    rewrite Hkey, lookup_insert_eq. split.
    + intros [= <-]. exists (length pre), x.
      rewrite lookup_app_r, Nat.sub_diag by lia.
      split; [done|split; [done|split; [done|]]].
      intros j y o Hj Hy. by destruct (Hbeyond j y).
    + intros (i & y & Hi & Hk & Hacc' & Hlater).
      destruct (decide (i = length pre)) as [->|Hne'].
      * apply Hlast in Hi as ->. f_equal.
        by eapply accepted_run_output.
      * assert (i < length pre).
        { apply lookup_lt_Some in Hi. rewrite length_app in Hi.
          simpl in Hi. lia. }
        exfalso. apply (Hlater (length pre) x out); try done.
        by rewrite lookup_app_r, Nat.sub_diag by lia.
  - (* the last input leaves the value under this key as it was *)
    assert (Hs : s !! key = s1 !! key).
    { destruct E as [(-> & Hanc & Hne & _ & ->)|[_ ->]]; [|done].
      apply lookup_insert_ne. intros Hk. apply Hno. done. }
    rewrite Hs, IH. split.
    + intros (i & y & Hi & Hk & Hacc & Hlater).
      exists i, y. rewrite lookup_app_l by by eapply lookup_lt_Some.
      split; [done|split; [done|split; [done|]]].
      intros j z o Hj Hz Hkz Haccz.
      destruct (decide (j < length pre)) as [Hlt|Hge].
      * rewrite lookup_app_l in Hz by done. by eapply Hlater.
      * destruct (decide (j = length pre)) as [->|Hne'];
          [|by apply (Hbeyond j z); [lia|]].
        apply Hlast in Hz as ->. destruct Haccz as (Hr & Ha & Hn).
        rewrite Hr in Hrun. injection Hrun as <- <-. by apply Hno.
    + intros (i & y & Hi & Hk & Hacc & Hlater).
      destruct (decide (i = length pre)) as [->|Hne'].
      * apply Hlast in Hi as ->. destruct Hacc as (Hr & Ha & Hn).
        rewrite Hr in Hrun. injection Hrun as <- <-. by destruct Hno.
      * assert (Hlt : i < length pre).
        { apply lookup_lt_Some in Hi. rewrite length_app in Hi.
          simpl in Hi. lia. }
        rewrite lookup_app_l in Hi by done.
        exists i, y. split; [done|split; [done|split; [done|]]].
        intros j z o Hj Hz. apply Hlater; [done|].
        rewrite lookup_app_l; [done|by eapply lookup_lt_Some].
Qed.

Lemma score_is_last_accepted_output_aux fuel self sample island version w w' :
  analyse fuel self sample island version w = (Ok tt, w') →
  ∃ new_function program scores,
    (_sample_to_program fuel sample version (_template self)
       (_function_to_evolve self) w).1
      = Ok (new_function, program)
    ∧ database w' =
        database w ++ (if decide (scores = ∅) then []
                       else [mkRegistration new_function island scores])
    ∧ ∀ key v, scores !! key = Some v ↔
        last_accepted_run self program (length (processes w))
          (_inputs self) key v.
Proof.
  intros H. apply analyse_returns in H
    as (fn & program & w1 & scores & w2 & E1 & E2 & Hp & Hd).
  exists fn, program, scores. rewrite E1. split; [done|]. split; [done|].
  rewrite <- Hp. by apply score_inputs_last_accepted with (w' := w2).
Qed.

(** X7: when [analyse] returns, the score kept under a key is the output of
    the last accepted run among the test inputs with that string
    representation: a later input with the same representation overwrites
    the score of an earlier one, and a later input that is not accepted
    leaves it. *)
Theorem score_is_last_accepted_output fuel self sample island version w w' :
  analyse fuel self sample island version w = (Ok tt, w') →
  ∃ new_function program scores,
    (_sample_to_program fuel sample version (_template self)
       (_function_to_evolve self) w).1
      = Ok (new_function, program)
    ∧ database w' =
        database w ++ (if decide (scores = ∅) then []
                       else [mkRegistration new_function island scores])
    ∧ ∀ key v, scores !! key = Some v ↔
        last_accepted_run self program (length (processes w))
          (_inputs self) key v.
Proof. apply score_is_last_accepted_output_aux. Qed.

(** X8: when the test inputs have pairwise distinct string
    representations and [analyse] returns, the score map holds, for each
    input, the output of its own run if that run was accepted, and no entry
    for it otherwise. *)
Theorem score_of_each_input fuel self sample island version w w' :
  NoDup (py_str <$> _inputs self) →
  analyse fuel self sample island version w = (Ok tt, w') →
  ∃ new_function program scores,
    (_sample_to_program fuel sample version (_template self)
       (_function_to_evolve self) w).1
      = Ok (new_function, program)
    ∧ database w' =
        database w ++ (if decide (scores = ∅) then []
                       else [mkRegistration new_function island scores])
    ∧ ∀ i x v, _inputs self !! i = Some x →
        (scores !! py_str x = Some v ↔
         accepted_run self program (length (processes w)) i x v).
Proof.
  intros Hnd H. apply score_is_last_accepted_output_aux in H
    as (fn & program & scores & E1 & Hd & Hk).
  exists fn, program, scores. split; [done|]. split; [done|].
  intros i x v Hi. rewrite Hk. split.
  - intros (i' & y & Hi' & Hy & Hacc & _).
    assert (i' = i) as ->.
    { eapply NoDup_lookup; [exact Hnd| |]; rewrite list_lookup_fmap.
      - rewrite Hi'. simpl. by rewrite Hy.
      - by rewrite Hi. }
    rewrite Hi in Hi'. by injection Hi' as <-.
  - intros Hacc. exists i, x. split; [done|split; [done|split; [done|]]].
    intros j y out Hj Hy Hkey _.
    assert (j = i); [|lia].
    eapply NoDup_lookup; [exact Hnd| |]; rewrite list_lookup_fmap.
    + rewrite Hy. simpl. by rewrite Hkey.
    + by rewrite Hi.
Qed.

Lemma analyse_database_cases fuel self sample island version w o w' :
  analyse fuel self sample island version w = (o, w') →
  database w' = database w
  ∨ ∃ new_function program w1 scores w2,
      o = Ok tt
      ∧ _sample_to_program fuel sample version (_template self)
          (_function_to_evolve self) w = (Ok (new_function, program), w1)
      ∧ score_inputs self program (_inputs self) ∅ w1 = (Ok scores, w2)
      ∧ scores ≠ ∅
      ∧ database w' = database w ++ [mkRegistration new_function island scores].
Proof.
  unfold analyse. unfold_M.
  destruct (_sample_to_program _ _ _ _ _ _) as [[[fn program]| |] w1] eqn:E1;
    pose proof E1 as (_ & _ & Hd)%sample_to_program_frame.
  2,3: intros [= _ <-]; by left.
  destruct (score_inputs _ _ _ _ _) as [[scores| |] w2] eqn:E2;
    pose proof E2 as (_ & Hd2 & _)%score_inputs_frame.
  2,3: intros [= _ <-]; left; by rewrite Hd2.
  destruct (decide (scores = ∅)) as [->|Hne].
  - intros [= _ <-]. left. by rewrite Hd2.
  - unfold register_program. intros [= <- <-]. right.
    exists fn, program, w1, scores, w2. simpl. by rewrite Hd2, Hd.
Qed.

(** X9: whatever a call of [analyse] does, it leaves the earlier
    registrations as they are and adds at most one; the one it adds carries
    the island identifier it was given and a score map that is not empty and
    holds only numbers, never [None]. *)
Theorem analyse_registers_numbers fuel self sample island version w o w' :
  analyse fuel self sample island version w = (o, w') →
  database w' = database w
  ∨ ∃ r, database w' = database w ++ [r]
      ∧ o = Ok tt
      ∧ reg_island_id r = island
      ∧ reg_scores r ≠ ∅
      ∧ ∀ key v, reg_scores r !! key = Some v →
          isinstance_int_float v = true ∧ v ≠ VNone.
Proof.
  intros H. apply analyse_database_cases in H
    as [H|(fn & program & w1 & scores & w2 & -> & E1 & E2 & Hne & Hd)];
    [by left|right].
  eexists. split; [exact Hd|]. simpl.
  split; [done|split; [done|split; [done|]]].
  intros key v Hv.
  apply (score_inputs_last_accepted _ _ _ _ _ _ E2) in Hv
    as (i & x & Hi & _ & Hacc & _).
  split; [by eapply score_inputs_numeric|by destruct Hacc as (_ & _ & ?)].
Qed.

Lemma score_inputs_reports self program : ∀ inputs scores w,
  (∀ i x, inputs !! i = Some x →
     ∃ out ok,
       run_result (worker (length (processes w) + i) program
                     (_function_to_run self) x (_timeout_seconds self))
         = Ok (out, ok)
       ∧ (admitted self program out ok = true →
          isinstance_int_float out = true)) →
  ∃ scores' w', score_inputs self program inputs scores w = (Ok scores', w').
Proof.
  induction inputs as [|x rest IH]; intros scores w Hruns; simpl.
  { by eexists _, _. }
  unfold_M. rewrite Sandbox_run_unfold.
  destruct (Hruns 0 x eq_refl) as (out & ok & Hr & Hnum).
  rewrite Nat.add_0_r in Hr. rewrite Hr.
  assert (Hrec : ∃ s, record_score self program x out ok scores
                   (set_processes
                      (processes w ++ [final_status
                         (worker (length (processes w)) program
                            (_function_to_run self) x (_timeout_seconds self))]) w)
                 = (Ok s, set_processes
                      (processes w ++ [final_status
                         (worker (length (processes w)) program
                            (_function_to_run self) x (_timeout_seconds self))]) w)).
  { unfold record_score. unfold_M.
    destruct (admitted self program out ok); [|by eexists].
    rewrite Hnum by done. by eexists. }
  destruct Hrec as [s ->]. apply IH. intros i y Hi. simpl.
  rewrite length_app. simpl.
  replace (length (processes w) + 1 + i) with (length (processes w) + S i)
    by lia.
  by apply (Hruns (S i) y).
Qed.

(** X10: timeouts and exceptions in the workers never make [analyse]
    raise: when the program was assembled and every run gives
    [Sandbox.run] a pair to return (no worker ends without a result), with a
    number whenever it passes the three checks, [analyse] returns. *)
Theorem analyse_absorbs_failed_runs fuel self sample island version w
    new_function program w1 :
  _sample_to_program fuel sample version (_template self)
    (_function_to_evolve self) w = (Ok (new_function, program), w1) →
  (∀ i x, _inputs self !! i = Some x →
     ∃ out ok,
       run_result (worker (length (processes w) + i) program
                     (_function_to_run self) x (_timeout_seconds self))
         = Ok (out, ok)
       ∧ (admitted self program out ok = true →
          isinstance_int_float out = true)) →
  ∃ w', analyse fuel self sample island version w = (Ok tt, w').
Proof.
  intros E1 Hruns.
  pose proof E1 as (_ & Hp & _)%sample_to_program_frame.
  rewrite <- Hp in Hruns.
  destruct (score_inputs_reports self program (_inputs self) ∅ w1 Hruns)
    as (scores & w2 & E2).
  unfold analyse. unfold_M. rewrite E1, E2.
  destruct (decide (scores = ∅)); by eexists.
Qed.



(** X12: a worker that ends without putting a result in the queue (the
    process is killed, or the entry point raises [SystemExit]) makes
    [analyse] raise [queue.Empty] at that test input: the later inputs are
    not run and nothing is registered, whatever the earlier inputs
    scored. *)
Theorem analyse_raises_when_worker_is_silent fuel self sample island version w
    new_function program w1 pre x post scores w2 c :
  _inputs self = pre ++ x :: post →
  _sample_to_program fuel sample version (_template self)
    (_function_to_evolve self) w = (Ok (new_function, program), w1) →
  score_inputs self program pre ∅ w1 = (Ok scores, w2) →
  worker (length (processes w2)) program (_function_to_run self) x
    (_timeout_seconds self) = Finished c →
  sandbox_target [] c = [] →
  analyse fuel self sample island version w
    = (Raise QueueEmpty, set_processes (processes w2 ++ [Exited]) w2)
  ∧ database w2 = database w
  ∧ length (processes w2) = length (processes w) + length pre.
Proof.
  intros Hin E1 E2 Hw Hq.
  pose proof E1 as (_ & Hp & Hd)%sample_to_program_frame.
  pose proof E2 as (_ & Hd2 & _)%score_inputs_frame.
  pose proof E2 as [Hlen _]%score_inputs_ok.
  split; [|split; [by rewrite Hd2|by rewrite Hlen, Hp]].
  unfold analyse. unfold_M. rewrite E1, Hin, score_inputs_app, E2. simpl.
  unfold_M. rewrite Sandbox_run_unfold, Hw. simpl. by rewrite Hq.
Qed.

End FurtherEvaluator.

(** ** The assembled program *)

Lemma deepcopy_functions_bounds base : ∀ fs memo h r h',
  base ≤ length h →
  (∀ l l', memo !! l = Some l' → base ≤ l' < length h) →
  deepcopy_functions memo fs h = (r, h') →
  h `prefix_of` h' ∧ Forall (λ l', base ≤ l' < length h') r.
Proof.
  induction fs as [|l fs IH]; intros memo h r h' Hbase Hmemo; simpl.
  { by intros [= <- <-]. }
  destruct (memo !! l) as [l'|] eqn:El.
  - destruct (deepcopy_functions memo fs h) as [r0 h0] eqn:E.
    intros [= <- <-]. destruct (IH _ _ _ _ Hbase Hmemo E) as [Hp Hr].
    split; [done|]. constructor; [|done].
    apply Hmemo in El. apply prefix_length in Hp. lia.
  - destruct (deepcopy_functions _ fs (h ++ _)) as [r0 h0] eqn:E.
    intros [= <- <-]. apply IH in E as [Hp Hr].
    + split; [etransitivity; [|exact Hp]; by apply prefix_app_r|].
      constructor; [|done]. apply prefix_length in Hp.
      rewrite length_app in Hp. simpl in Hp. lia.
    + rewrite length_app. lia.
    + intros l1 l2. rewrite lookup_insert, length_app. simpl. case_decide.
      * intros [= <-]. lia.
      * intros Hl. apply Hmemo in Hl. lia.
Qed.

Section FurtherAssembly.

Context {ext : Externals}.

(** X13: the Function that [_sample_to_program] returns, the one [analyse]
    registers, is an instance created by the call (its address is not in the
    store the call started from, so it is no Function of the template); its
    name is the function to evolve and its body is the recovered body, with
    the calls of [<function_to_evolve>_v<version>] renamed when a version is
    given and as recovered when none is. *)
Theorem evolved_function_is_new fuel generated_code version template
    function_to_evolve w new_function text w1 :
  _sample_to_program fuel generated_code version template function_to_evolve w
    = (Ok (new_function, text), w1) →
  ∃ recovered,
    _trim_function_body fuel generated_code = Ok recovered
    ∧ length (heap w) ≤ new_function < length (heap w1)
    ∧ fn_name (heap w1 !!! new_function) = function_to_evolve
    ∧ fn_body (heap w1 !!! new_function) =
        match version with
        | Some v =>
            rename_function_calls recovered
              (function_to_evolve ++ py "_v" ++ format_int v)
              function_to_evolve
        | None => recovered
        end.
Proof.
  unfold _sample_to_program, deepcopy, get_function, set_body, program_str.
  unfold_M.
  destruct (_trim_function_body fuel generated_code) as [b| |]; try done.
  destruct (deepcopy_functions ∅ (functions template) (heap w)) as [r h1] eqn:E.
  simpl.
  apply (deepcopy_functions_bounds (length (heap w))) in E as [Hp Hr];
    [|lia|by intros ? ?; rewrite lookup_empty].
  destruct (list_find _ r) as [[i l]|] eqn:F; simpl; [|done].
  apply list_find_Some in F as (Hl & Hname & _).
  rewrite Forall_lookup in Hr. specialize (Hr _ _ Hl). simpl in Hr.
  intros [= <- _ <-]. simpl. exists b. split; [done|].
  rewrite length_insert. split; [lia|].
  by rewrite list_lookup_total_insert_eq by lia.
Qed.

End FurtherAssembly.

(** ** Examples for the further properties *)


Lemma score_is_last_accepted_output_witness :
  sample_analyse run_by_type runs_two_scores same_key_inputs
    = (Ok tt, (sample_analyse run_by_type runs_two_scores same_key_inputs).2)
  ∧ ∃ new_function program scores,
      (_sample_to_program (ext := sample_externals runs_two_scores [py "evolve"])
         3 sample_fragment None sample_template (py "evolve")
         (sample_world run_by_type)).1 = Ok (new_function, program)
      ∧ database (sample_analyse run_by_type runs_two_scores same_key_inputs).2 =
          database (sample_world run_by_type)
          ++ (if decide (scores = ∅) then []
              else [mkRegistration new_function None scores])
      ∧ ∀ key v, scores !! key = Some v ↔
          last_accepted_run (ext := sample_externals runs_two_scores [py "evolve"])
            (sample_evaluator same_key_inputs) program
            (length (processes (sample_world run_by_type)))
            same_key_inputs key v.
Proof.
  split; [by vm_compute|].
  apply (score_is_last_accepted_output
           (ext := sample_externals runs_two_scores [py "evolve"])
           3 (sample_evaluator same_key_inputs) sample_fragment None None
           (sample_world run_by_type)
           (sample_analyse run_by_type runs_two_scores same_key_inputs).2).
  by vm_compute.
Defined.

Lemma score_of_each_input_witness :
  NoDup (sample_str <$> two_inputs)
  ∧ ∃ new_function program scores,
      (_sample_to_program (ext := sample_externals runs_one_failure [py "evolve"])
         3 sample_fragment None sample_template (py "evolve")
         (sample_world run_dividing)).1 = Ok (new_function, program)
      ∧ database (sample_analyse run_dividing runs_one_failure two_inputs).2 =
          database (sample_world run_dividing)
          ++ (if decide (scores = ∅) then []
              else [mkRegistration new_function None scores])
      ∧ ∀ i x v, two_inputs !! i = Some x →
          (scores !! sample_str x = Some v ↔
           accepted_run (ext := sample_externals runs_one_failure [py "evolve"])
             (sample_evaluator two_inputs) program
             (length (processes (sample_world run_dividing))) i x v).
Proof.
  assert (Hnd : NoDup (sample_str <$> two_inputs)).
  { refine (bool_decide_unpack _ _). by vm_compute. }
  split; [exact Hnd|].
  apply (score_of_each_input
           (ext := sample_externals runs_one_failure [py "evolve"])
           3 (sample_evaluator two_inputs) sample_fragment None None
           (sample_world run_dividing)
           (sample_analyse run_dividing runs_one_failure two_inputs).2 Hnd).
  by vm_compute.
Defined.

Lemma analyse_registers_numbers_witness :
  database (sample_analyse run_dividing runs_one_failure two_inputs).2
    = database (sample_world run_dividing)
  ∨ ∃ r, database (sample_analyse run_dividing runs_one_failure two_inputs).2
           = database (sample_world run_dividing) ++ [r]
      ∧ (sample_analyse run_dividing runs_one_failure two_inputs).1 = Ok tt
      ∧ reg_island_id r = None
      ∧ reg_scores r ≠ ∅
      ∧ ∀ key v, reg_scores r !! key = Some v →
          isinstance_int_float v = true ∧ v ≠ VNone.
Proof.
  apply (analyse_registers_numbers
           (ext := sample_externals runs_one_failure [py "evolve"])
           3 (sample_evaluator two_inputs) sample_fragment None None
           (sample_world run_dividing)).
  apply surjective_pairing.
Defined.

Lemma analyse_absorbs_failed_runs_witness :
  ∃ w', sample_analyse run_dividing
          [Finished (Returned (VInt 5));
           Finished (RaisedException (py "integer division or modulo by zero")
                       (py "Traceback (most recent call last):"));
           StillRunning]
          [VInt 1; VInt 2; VInt 3]
        = (Ok tt, w').
Proof.
  eapply (analyse_absorbs_failed_runs
            (ext := sample_externals
                      [Finished (Returned (VInt 5));
                       Finished (RaisedException
                                   (py "integer division or modulo by zero")
                                   (py "Traceback (most recent call last):"));
                       StillRunning] [py "evolve"])
            3 (sample_evaluator [VInt 1; VInt 2; VInt 3]) sample_fragment
            None None (sample_world run_dividing)).
  - lazy. reflexivity.
  - intros [|[|[|i]]] x Hx; simpl in Hx; [| | |done]; injection Hx as <-;
      eexists _, _; (split; [by vm_compute|by vm_compute]).
Defined.


Lemma analyse_raises_when_worker_is_silent_witness :
  sample_analyse run_exiting runs_exit two_inputs
    = (Raise QueueEmpty,
       set_processes
         (processes
            (set_processes [Exited]
               (_sample_to_program (ext := sample_externals runs_exit [py "evolve"])
                  3 sample_fragment None sample_template (py "evolve")
                  (sample_world run_exiting)).2) ++ [Exited])
         (set_processes [Exited]
            (_sample_to_program (ext := sample_externals runs_exit [py "evolve"])
               3 sample_fragment None sample_template (py "evolve")
               (sample_world run_exiting)).2))
  ∧ database
      (set_processes [Exited]
         (_sample_to_program (ext := sample_externals runs_exit [py "evolve"])
            3 sample_fragment None sample_template (py "evolve")
            (sample_world run_exiting)).2)
    = database (sample_world run_exiting)
  ∧ length
      (processes
         (set_processes [Exited]
            (_sample_to_program (ext := sample_externals runs_exit [py "evolve"])
               3 sample_fragment None sample_template (py "evolve")
               (sample_world run_exiting)).2))
    = length (processes (sample_world run_exiting)) + length [VInt 1].
Proof.
  eapply (analyse_raises_when_worker_is_silent
            (ext := sample_externals runs_exit [py "evolve"])
            3 (sample_evaluator two_inputs) sample_fragment None None
            (sample_world run_exiting) _ _ _ [VInt 1] (VInt 2) []
            _ _ RaisedBaseException).
  - reflexivity.
  - lazy. reflexivity.
  - lazy. reflexivity.
  - by vm_compute.
  - reflexivity.
Defined.

Lemma evolved_function_is_new_witness :
  ∃ recovered,
    _trim_function_body (ext := sample_externals [] [py "evolve"]) 3
      sample_fragment = Ok recovered
    ∧ length (heap (sample_world run_number)) ≤ 2
      < length (heap (_sample_to_program (ext := sample_externals [] [py "evolve"])
                        3 sample_fragment None sample_template (py "evolve")
                        (sample_world run_number)).2)
    ∧ fn_name (heap (_sample_to_program (ext := sample_externals [] [py "evolve"])
                       3 sample_fragment None sample_template (py "evolve")
                       (sample_world run_number)).2 !!! 2) = py "evolve"
    ∧ fn_body (heap (_sample_to_program (ext := sample_externals [] [py "evolve"])
                       3 sample_fragment None sample_template (py "evolve")
                       (sample_world run_number)).2 !!! 2) = recovered.
Proof.
  apply (evolved_function_is_new (ext := sample_externals [] [py "evolve"])
           3 sample_fragment None sample_template (py "evolve")
           (sample_world run_number) 2
           (sample_render (heap (sample_world run_number)))).
  by vm_compute.
Defined.
